(** * wb-dashboard: the filter evaluator of the dashboard scripts

    A shallow embedding of the three variants of the dashboard script
    ([src/script.js], [src/unnamed/part_000], [src/unnamed/part_001]):
    [applyFilters], [renderResults], [renderPreview] and the year part of
    [populateFilters], together with the fragment of the JavaScript
    semantics these functions rely on (truthiness, [===], the relational
    operators, [isNaN], [parseInt], [new Set], the default [sort]).

    Conventions of the model.
    - A JavaScript number is [NaN], an infinity, or a finite number given
      by the rational it denotes; rounding and overflow of IEEE doubles
      are not modelled, and [-0] is identified with [0].
    - A string is a sequence of 8-bit characters; only the ASCII white
      space characters are recognised as white space.
    - A record field holds a primitive value; [JUndefined] is a missing
      field.
    - [console.log] diagnostics are left out. *)

From Stdlib Require Import ZArith QArith Bool Btauto Ascii String List Sorted Lia.
From stdpp Require Import base list strings.
Import ListNotations.

Local Open Scope string_scope.
Local Open Scope list_scope.
Local Open Scope Z_scope.

(** ** JavaScript primitive values *)

Inductive JsNum : Type :=
| NaN
| Infinity (negative : bool)
| Fin (q : Q).

Inductive JsVal : Type :=
| JUndefined
| JNull
| JBool (b : bool)
| JNum (n : JsNum)
| JStr (s : string).

Definition JInt (z : Z) : JsVal := JNum (Fin (inject_Z z)).

(** *** Characters and digits *)

(** StrWhiteSpaceChar, ASCII part: TAB, LF, VT, FF, CR, SP. *)
Definition is_white_space (c : ascii) : bool :=
  let n := nat_of_ascii c in
  ((9 <=? n) && (n <=? 13))%nat || (n =? 32)%nat.

(** The value of [c] as a digit in radix 36 (0-9, a-z, A-Z). *)
Definition digit_value (c : ascii) : option Z :=
  let n := Z.of_nat (nat_of_ascii c) in
  if (48 <=? n) && (n <=? 57) then Some (n - 48)
  else if (97 <=? n) && (n <=? 122) then Some (n - 87)
  else if (65 <=? n) && (n <=? 90) then Some (n - 55)
  else None.

Definition digit_in (radix : Z) (c : ascii) : option Z :=
  match digit_value c with
  | Some d => if d <? radix then Some d else None
  | None => None
  end.

(** The longest prefix of digits of the given radix, and the rest. *)
Fixpoint span_digits (radix : Z) (s : list ascii) : list Z * list ascii :=
  match s with
  | [] => ([], [])
  | c :: s' =>
      match digit_in radix c with
      | Some d => let (ds, rest) := span_digits radix s' in (d :: ds, rest)
      | None => ([], s)
      end
  end.

Definition digits_to_Z (radix : Z) (ds : list Z) : Z :=
  fold_left (fun acc d => acc * radix + d) ds 0.

Fixpoint skip_white_space (s : list ascii) : list ascii :=
  match s with
  | [] => []
  | c :: s' => if is_white_space c then skip_white_space s' else s
  end.

Definition trim_white_space (s : list ascii) : list ascii :=
  rev (skip_white_space (rev (skip_white_space s))).

Definition chars (s : string) : list ascii := list_ascii_of_string s.

Definition ascii_eqb_ci (c : ascii) (lower upper : ascii) : bool :=
  Ascii.eqb c lower || Ascii.eqb c upper.

(** An optional sign in front: whether it is [-], and what follows. *)
Definition strip_sign (s : list ascii) : bool * list ascii :=
  match s with
  | "-"%char :: s' => (true, s')
  | "+"%char :: s' => (false, s')
  | _ => (false, s)
  end.

(** The radix of [parseInt] when none is given: 16 after [0x] or [0X],
    which is removed, and 10 otherwise. *)
Definition strip_hex_prefix (s : list ascii) : Z * list ascii :=
  match s with
  | "0"%char :: x :: s' =>
      if ascii_eqb_ci x "x" "X" then (16, s') else (10, s)
  | _ => (10, s)
  end.

(** *** parseInt(string) with the radix left undefined *)

Definition parseInt (input : string) : JsNum :=
  let s := skip_white_space (chars input) in
  let (negative, s) := strip_sign s in
  let (radix, s) := strip_hex_prefix s in
  match span_digits radix s with
  | ([], _) => NaN
  | (ds, _) =>
      let n := digits_to_Z radix ds in
      Fin (inject_Z (if negative then - n else n))
  end.

(** *** ToNumber applied to a string (StringToNumber) *)

Definition pow10 (m : Z) (e : Z) : Q :=
  if 0 <=? e then inject_Z (m * 10 ^ e)
  else Qmake m (Z.to_pos (10 ^ (- e))).

(** The exponent part: empty, or [e]/[E], an optional sign and digits. *)
Definition exponent_part (s : list ascii) : option Z :=
  match s with
  | [] => Some 0
  | c :: s' =>
      if ascii_eqb_ci c "e" "E" then
        let (negative, s'') := strip_sign s' in
        match span_digits 10 s'' with
        | ((_ :: _) as ds, []) =>
            let e := digits_to_Z 10 ds in
            Some (if negative then - e else e)
        | _ => None
        end
      else None
  end.

(** StrUnsignedDecimalLiteral without [Infinity]. *)
Definition unsigned_decimal (s : list ascii) : option Q :=
  let (int_digits, rest) := span_digits 10 s in
  let '(frac_digits, rest) :=
    match rest with
    | "."%char :: t => span_digits 10 t
    | _ => ([], rest)
    end in
  match int_digits ++ frac_digits with
  | [] => None
  | ds =>
      match exponent_part rest with
      | Some e =>
          Some (pow10 (digits_to_Z 10 ds) (e - Z.of_nat (length frac_digits)))
      | None => None
      end
  end.

Definition is_Infinity_literal (s : list ascii) : bool :=
  String.eqb (string_of_list_ascii s) "Infinity".

Definition signed_decimal (s : list ascii) : JsNum :=
  let (negative, body) := strip_sign s in
  if is_Infinity_literal body then Infinity negative
  else match unsigned_decimal body with
       | Some q => Fin (if negative then Qopp q else q)
       | None => NaN
       end.

(** NonDecimalIntegerLiteral: [0x], [0o] or [0b] followed by digits only. *)
Definition non_decimal (s : list ascii) : option JsNum :=
  match s with
  | "0"%char :: x :: t =>
      let radix :=
        if ascii_eqb_ci x "x" "X" then Some 16
        else if ascii_eqb_ci x "o" "O" then Some 8
        else if ascii_eqb_ci x "b" "B" then Some 2
        else None in
      match radix with
      | Some r =>
          match span_digits r t with
          | ((_ :: _) as ds, []) => Some (Fin (inject_Z (digits_to_Z r ds)))
          | _ => Some NaN
          end
      | None => None
      end
  | _ => None
  end.

Definition StringToNumber (input : string) : JsNum :=
  match trim_white_space (chars input) with
  | [] => Fin 0
  | s =>
      match non_decimal s with
      | Some n => n
      | None => signed_decimal s
      end
  end.

(** *** Coercions and operators *)

Definition ToNumber (v : JsVal) : JsNum :=
  match v with
  | JUndefined => NaN
  | JNull => Fin 0
  | JBool b => Fin (if b then 1 else 0)
  | JNum n => n
  | JStr s => StringToNumber s
  end.

(** ToBoolean. *)
Definition truthy (v : JsVal) : bool :=
  match v with
  | JUndefined | JNull => false
  | JBool b => b
  | JNum NaN => false
  | JNum (Infinity _) => true
  | JNum (Fin q) => negb (Qnum q =? 0)
  | JStr s => negb (String.eqb s "")
  end.

(** The global [isNaN]: coerce, then test. *)
Definition isNaN (v : JsVal) : bool :=
  match ToNumber v with
  | NaN => true
  | _ => false
  end.

(** Number comparison; [None] is the "undefined" outcome caused by NaN. *)
Definition num_compare (x y : JsNum) : option comparison :=
  match x, y with
  | NaN, _ | _, NaN => None
  | Infinity a, Infinity b =>
      Some (if Bool.eqb a b then Eq else if a then Lt else Gt)
  | Infinity a, Fin _ => Some (if a then Lt else Gt)
  | Fin _, Infinity b => Some (if b then Gt else Lt)
  | Fin p, Fin q => Some (Qcompare p q)
  end.

Definition num_eqb (x y : JsNum) : bool :=
  match num_compare x y with
  | Some Eq => true
  | _ => false
  end.

(** Code-unit order on strings. *)
Definition string_compare (s t : string) : comparison := String.compare s t.

(** The abstract relational comparison of two primitives. *)
Definition js_compare (v w : JsVal) : option comparison :=
  match v, w with
  | JStr s, JStr t => Some (string_compare s t)
  | _, _ => num_compare (ToNumber v) (ToNumber w)
  end.

(** [v >= w], [v <= w], [v > w], [v < w]. *)
Definition js_ge (v w : JsVal) : bool :=
  match js_compare v w with Some Gt | Some Eq => true | _ => false end.
Definition js_le (v w : JsVal) : bool :=
  match js_compare v w with Some Lt | Some Eq => true | _ => false end.
Definition js_gt (v w : JsVal) : bool :=
  match js_compare v w with Some Gt => true | _ => false end.
Definition js_lt (v w : JsVal) : bool :=
  match js_compare v w with Some Lt => true | _ => false end.

(** [v === w]. *)
Definition strict_eq (v w : JsVal) : bool :=
  match v, w with
  | JUndefined, JUndefined => true
  | JNull, JNull => true
  | JBool a, JBool b => Bool.eqb a b
  | JNum x, JNum y => num_eqb x y
  | JStr s, JStr t => String.eqb s t
  | _, _ => false
  end.

(** SameValueZero, the equality of [Set]: as [===] except on [NaN]. *)
Definition same_value_zero (v w : JsVal) : bool :=
  match v, w with
  | JNum NaN, JNum NaN => true
  | _, _ => strict_eq v w
  end.

(** *** ToString, on the fragment modelled *)

Definition digit_char (d : Z) : ascii := ascii_of_nat (Z.to_nat (48 + d)).

(** The decimal digits of [n >= 0], most significant first. *)
Fixpoint decimal_digits (fuel : nat) (n : Z) (acc : list ascii) : list ascii :=
  match fuel with
  | O => acc
  | S fuel' =>
      let acc' := digit_char (n mod 10) :: acc in
      if n <? 10 then acc' else decimal_digits fuel' (n / 10) acc'
  end.

(** An integer below 10^21 in absolute value prints as its decimal
    digits, which are at most 21. *)
Definition integer_to_string (z : Z) : string :=
  let digits := string_of_list_ascii (decimal_digits 21 (Z.abs z) []) in
  if z <? 0 then "-" ++ digits else digits.

(** Number::toString. Defined for [NaN], the infinities and the integers
    below 10^21 in absolute value; the shortest-digits printing of the
    other numbers depends on their binary representation and is left
    out of the model ([None]). *)
Definition NumberToString (n : JsNum) : option string :=
  match n with
  | NaN => Some "NaN"
  | Infinity negative => Some (if negative then "-Infinity" else "Infinity")
  | Fin q =>
      let z := Qnum q / Zpos (Qden q) in
      if (Qnum q mod Zpos (Qden q) =? 0) && (Z.abs z <? 10 ^ 21)
      then Some (integer_to_string z)
      else None
  end.

Definition ToString (v : JsVal) : option string :=
  match v with
  | JUndefined => Some "undefined"
  | JNull => Some "null"
  | JBool b => Some (if b then "true" else "false")
  | JNum n => NumberToString n
  | JStr s => Some s
  end.

(** *** [[...new Set(values)]]: the distinct values, in order of first
    occurrence *)

Fixpoint set_add_all (values : list JsVal) (members : list JsVal) : list JsVal :=
  match values with
  | [] => members
  | v :: values' =>
      if existsb (same_value_zero v) members then set_add_all values' members
      else set_add_all values' (members ++ [v])
  end.

Definition distinct (values : list JsVal) : list JsVal := set_add_all values [].

(** *** [array.sort()] without a comparison function

    The elements other than [undefined] are ordered by the code-unit
    order of their strings, elements with equal strings keeping their
    order (the sort is stable); the [undefined] elements come last. *)

Definition is_undefined (v : JsVal) : bool :=
  match v with
  | JUndefined => true
  | _ => false
  end.

(** Insertion in front of the first element whose string is not smaller. *)
Fixpoint insert_sorted (x : string * JsVal) (sorted : list (string * JsVal))
  : list (string * JsVal) :=
  match sorted with
  | [] => [x]
  | y :: sorted' =>
      match string_compare (fst y) (fst x) with
      | Lt => y :: insert_sorted x sorted'
      | _ => x :: sorted
      end
  end.

Definition sort_by_string (keyed : list (string * JsVal)) : list (string * JsVal) :=
  fold_right insert_sorted [] keyed.

Fixpoint with_strings (values : list JsVal) : option (list (string * JsVal)) :=
  match values with
  | [] => Some []
  | v :: values' =>
      match ToString v, with_strings values' with
      | Some s, Some keyed => Some ((s, v) :: keyed)
      | _, _ => None
      end
  end.

Definition sort (values : list JsVal) : option (list JsVal) :=
  match with_strings (List.filter (fun v => negb (is_undefined v)) values) with
  | Some keyed =>
      Some (map snd (sort_by_string keyed) ++ List.filter is_undefined values)
  | None => None
  end.

(** ** The data model *)

(** A data point of the dataset. The scripts read all of these fields
    but [subcategory]. *)
Module DataPoint.
Record t : Type := make {
  indicator : JsVal;
  country : JsVal;
  year : JsVal;
  value : JsVal;
  category : JsVal;
  subcategory : JsVal;
  layer : JsVal;
  unit : JsVal
}.
End DataPoint.

(** The [filters] object. A field is the string read from a select
    element, or absent ([None], read as [undefined]). *)
Module Filters.
Record t : Type := make {
  country : option string;
  indicator : option string;
  yearFrom : option string;
  yearTo : option string;
  year : option string;
  layer : option string
}.

(** The object [{}]. *)
Definition empty : t := make None None None None None None.
End Filters.

(** The value read from a property of [filters]. *)
Definition prop (field : option string) : JsVal :=
  match field with
  | Some s => JStr s
  | None => JUndefined
  end.

(** ToString of such a value, as [parseInt] applies it to its argument. *)
Definition prop_to_string (field : option string) : string :=
  match field with
  | Some s => s
  | None => "undefined"
  end.

(** What may be passed as [data], or stored in [allIndicatorsData]. *)
Inductive Data : Type :=
| Primitive (v : JsVal)
| PlainObject
| Array (items : list DataPoint.t).

(** ** The page: global variables and the parts of the document written *)

(** A select element: the values of its options and its current value. *)
Record Select : Type := {
  options : list string;
  selected : string
}.

(** Appending an option element with the given value. *)
Definition appendChild (option_value : string) (sel : Select) : Select :=
  {| options := options sel ++ [option_value]; selected := selected sel |}.

(** Assigning to [select.value]: the option with that value becomes the
    selected one; when there is none the select is left without a
    selection and its value reads as the empty string. *)
Definition set_value (v : string) (sel : Select) : Select :=
  {| options := options sel;
     selected := if existsb (String.eqb v) (options sel) then v else "" |}.

(** The filter controls of the page, by element id. *)
Record Controls : Type := {
  countryFilter : Select;
  indicatorFilter : Select;
  yearFromFilter : Select;
  yearToFilter : Select;
  yearFilter : Select;
  layerFilter : Select
}.

(** The content of the [summary] element. *)
Inductive Summary : Type :=
| SummaryMarkup (html : string)
| SummaryText (text : string)
| PointsAfterFilter (count : nat).   (* `${count} points after filter` *)

(** The content of the [preview-container] element. A table is kept as
    its column headers, the records of its body rows, and the truncation
    note (cap, total) when there is one. *)
Inductive Preview : Type :=
| PreviewMarkup (html : string)
| NoDataDiv (message : string)       (* <div class="no-data">message</div> *)
| Table (columns : list string) (rows : list DataPoint.t)
        (truncated : option (nat * nat)).

Record State : Type := {
  allIndicatorsData : Data;
  filteredData : list DataPoint.t;
  controls : Controls;
  summary : Summary;
  preview : Preview;
  alerts : list string               (* the messages shown by alert(), latest first *)
}.

Definition set_filteredData (rows : list DataPoint.t) (st : State) : State :=
  {| allIndicatorsData := allIndicatorsData st; filteredData := rows;
     controls := controls st; summary := summary st; preview := preview st;
     alerts := alerts st |}.

Definition set_summary (s : Summary) (st : State) : State :=
  {| allIndicatorsData := allIndicatorsData st; filteredData := filteredData st;
     controls := controls st; summary := s; preview := preview st;
     alerts := alerts st |}.

Definition set_preview (p : Preview) (st : State) : State :=
  {| allIndicatorsData := allIndicatorsData st; filteredData := filteredData st;
     controls := controls st; summary := summary st; preview := p;
     alerts := alerts st |}.

Definition alert (message : string) (st : State) : State :=
  {| allIndicatorsData := allIndicatorsData st; filteredData := filteredData st;
     controls := controls st; summary := summary st; preview := preview st;
     alerts := message :: alerts st |}.

(** The three ways [applyFilters] ends: the early return on missing data,
    the early return on an invalid year range, and the normal end, where
    [filtered] is stored and rendered. *)
Inductive Outcome : Type :=
| NoData
| RangeInvalid
| Filtered (filtered : list DataPoint.t).

(** [!data || !Array.isArray(data) || data.length === 0] *)
Definition no_data (data : Data) : bool :=
  match data with
  | Array (_ :: _) => false
  | _ => true
  end.

(** A default parameter takes its default when the argument is omitted
    or [undefined]. *)
Definition data_or_default (argument : option Data) (st : State) : Data :=
  match argument with
  | None | Some (Primitive JUndefined) => allIndicatorsData st
  | Some data => data
  end.

(** [d.value !== null && d.value !== undefined && !isNaN(d.value)] *)
Definition has_value (d : DataPoint.t) : bool :=
  negb (strict_eq (DataPoint.value d) JNull)
  && negb (strict_eq (DataPoint.value d) JUndefined)
  && negb (isNaN (DataPoint.value d)).

(** The early return of [applyFilters] on missing data. *)
Definition show_no_data (st : State) : State :=
  set_preview (NoDataDiv "No data available")
    (set_summary (SummaryText "No data available") st).

Definition range_message : string :=
  "From year must be less than or equal to To year".

(** [renderSummary(count)] *)
Definition renderSummary (count : nat) (st : State) : State :=
  set_summary (PointsAfterFilter count) st.

Definition no_match_message : string :=
  "No data matches the current filters".

(** [years.forEach(year => select.appendChild(option))], the option
    values being the strings of the years. *)
Definition append_options (values : list string) (sel : Select) : Select :=
  fold_left (fun sel v => appendChild v sel) values sel.

Definition set_year_range (from to : Select) (c : Controls) : Controls :=
  {| countryFilter := countryFilter c; indicatorFilter := indicatorFilter c;
     yearFromFilter := from; yearToFilter := to;
     yearFilter := yearFilter c; layerFilter := layerFilter c |}.

Definition set_yearFilter (sel : Select) (c : Controls) : Controls :=
  {| countryFilter := countryFilter c; indicatorFilter := indicatorFilter c;
     yearFromFilter := yearFromFilter c; yearToFilter := yearToFilter c;
     yearFilter := sel; layerFilter := layerFilter c |}.

(** [[...new Set(allIndicatorsData.map(d => d.year))].filter(y => y).sort()] *)
Definition derived_years (items : list DataPoint.t) : option (list JsVal) :=
  sort (List.filter truthy (distinct (map DataPoint.year items))).

(** ** Loading and the event handlers: shared parts *)

Definition set_controls (c : Controls) (st : State) : State :=
  {| allIndicatorsData := allIndicatorsData st; filteredData := filteredData st;
     controls := c; summary := summary st; preview := preview st;
     alerts := alerts st |}.

Definition set_allIndicatorsData (data : Data) (st : State) : State :=
  {| allIndicatorsData := data; filteredData := filteredData st;
     controls := controls st; summary := summary st; preview := preview st;
     alerts := alerts st |}.

Definition set_countryFilter (sel : Select) (c : Controls) : Controls :=
  {| countryFilter := sel; indicatorFilter := indicatorFilter c;
     yearFromFilter := yearFromFilter c; yearToFilter := yearToFilter c;
     yearFilter := yearFilter c; layerFilter := layerFilter c |}.

Definition set_indicatorFilter (sel : Select) (c : Controls) : Controls :=
  {| countryFilter := countryFilter c; indicatorFilter := sel;
     yearFromFilter := yearFromFilter c; yearToFilter := yearToFilter c;
     yearFilter := yearFilter c; layerFilter := layerFilter c |}.

Definition set_layerFilter (sel : Select) (c : Controls) : Controls :=
  {| countryFilter := countryFilter c; indicatorFilter := indicatorFilter c;
     yearFromFilter := yearFromFilter c; yearToFilter := yearToFilter c;
     yearFilter := yearFilter c; layerFilter := sel |}.

(** A select whose [innerHTML] is one option of empty value, such as
    [<option value=...>All Countries</option>]: that option is the
    selected one. *)
Definition single_empty_option : Select :=
  {| options := [""]; selected := "" |}.

(** [[...values].sort()] and, for each element in turn, an option of
    that value appended to the select. [appendChild] leaves the
    selection as it is, which is what a browser does when the select
    has a selected option. *)
Definition append_sorted (values : list JsVal) (sel : Select) : option Select :=
  match sort values with
  | None => None
  | Some sorted =>
      match with_strings sorted with
      | None => None
      | Some keyed => Some (append_options (map fst keyed) sel)
      end
  end.

(** What [fetch] and [response.json()] give. The document parsed is an
    object: [data_points] is its property of that name ([undefined] when
    it has none), [indicators] the array [metadata.indicators] when the
    document has one. *)
Record Document : Type := {
  data_points : Data;
  indicators : option (list JsVal)
}.

Inductive Body : Type :=
| Unparsable (message : string)      (* response.json() rejects *)
| Parsed (document : Document).

Record Response : Type := {
  status : Z;
  body : Body
}.

Inductive Fetched : Type :=
| Rejected (message : string)        (* fetch rejects *)
| Responded (response : Response).

(** [response.ok] *)
Definition ok (response : Response) : bool :=
  (200 <=? status response) && (status response <=? 299).

(** The [try] block up to [const data = await response.json()]: the
    message of the error thrown, or the document. *)
Definition fetch_document (fetched : Fetched) : string + Document :=
  match fetched with
  | Rejected message => inl message
  | Responded response =>
      if ok response then
        match body response with
        | Unparsable message => inl message
        | Parsed document => inr document
        end
      else inl ("HTTP error! status: "
                ++ integer_to_string (status response))%string
  end.

(** [data.data_points || []] *)
Definition data_points_or_empty (document : Document) : Data :=
  match data_points document with
  | Primitive v => if truthy v then Primitive v else Array []
  | data => data
  end.

(** The double quote character. *)
Definition dq : string := String (ascii_of_nat 34) "".

(** The error box of [src/script.js]. *)
Definition short_error_box (message : string) : string :=
  ("<div class=" ++ dq ++ "error" ++ dq ++ ">Error loading data: "
   ++ message ++ "</div>")%string.

(** The error box of the other two variants. *)
Definition long_error_box (message : string) : string :=
  (("<div class=" ++ dq ++ "error" ++ dq ++ ">
                <h3>⚠️ Data Loading Error</h3>
                <p><strong>Error:</strong> ")
  ++ message
  ++ ("</p>
                <p><strong>Possible solutions:</strong></p>
                <ul>
                    <li>Run the data transformation script: <code>cd data && python transform_data_v2.py</code></li>
                    <li>Or use the simple version: <code>cd data && python simple_transform.py</code></li>
                    <li>Check that data.xlsx exists in the data/ directory</li>
                    <li>Verify the transformation completed successfully</li>
                </ul>
                <p><em>Check the browser console for more details.</em></p>
            </div>"))%string.

(** [populateEmptyFilters()] of [src/unnamed/part_000] on the controls. *)
Definition empty_controls_5 (c : Controls) : Controls :=
  {| countryFilter := single_empty_option;
     indicatorFilter := single_empty_option;
     yearFromFilter := single_empty_option;
     yearToFilter := single_empty_option;
     yearFilter := yearFilter c;
     layerFilter := single_empty_option |}.

(** [populateEmptyFilters()] of [src/unnamed/part_001] on the controls. *)
Definition empty_controls_3 (c : Controls) : Controls :=
  {| countryFilter := single_empty_option;
     indicatorFilter := single_empty_option;
     yearFromFilter := yearFromFilter c;
     yearToFilter := yearToFilter c;
     yearFilter := single_empty_option;
     layerFilter := layerFilter c |}.

Definition run_script_message : string :=
  "No data available. Please run the data transformation script first.".

(** ** src/script.js *)
Module ScriptJs.

Definition getFilters (st : State) : Filters.t :=
  {| Filters.country := Some (selected (countryFilter (controls st)));
     Filters.indicator := Some (selected (indicatorFilter (controls st)));
     Filters.yearFrom := Some (selected (yearFromFilter (controls st)));
     Filters.yearTo := Some (selected (yearToFilter (controls st)));
     Filters.year := None;
     Filters.layer := Some (selected (layerFilter (controls st))) |}.

(** The body of [applyFilters] after the check on [data]. *)
Definition filter_rows (data : list DataPoint.t) (filters : Filters.t)
  : Outcome :=
  let filtered := data in
  let filtered :=
    if truthy (prop (Filters.country filters)) then
      List.filter (fun d => strict_eq (DataPoint.country d)
                              (prop (Filters.country filters))) filtered
    else filtered in
  let filtered :=
    if truthy (prop (Filters.indicator filters)) then
      List.filter (fun d => strict_eq (DataPoint.indicator d)
                              (prop (Filters.indicator filters))) filtered
    else filtered in
  let filtered :=
    if truthy (prop (Filters.yearFrom filters)) then
      let yearFrom := parseInt (prop_to_string (Filters.yearFrom filters)) in
      List.filter (fun d => js_ge (DataPoint.year d) (JNum yearFrom)) filtered
    else filtered in
  let filtered :=
    if truthy (prop (Filters.yearTo filters)) then
      let yearTo := parseInt (prop_to_string (Filters.yearTo filters)) in
      List.filter (fun d => js_le (DataPoint.year d) (JNum yearTo)) filtered
    else filtered in
  if truthy (prop (Filters.yearFrom filters))
     && truthy (prop (Filters.yearTo filters))
     && (let yearFrom := parseInt (prop_to_string (Filters.yearFrom filters)) in
         let yearTo := parseInt (prop_to_string (Filters.yearTo filters)) in
         js_gt (JNum yearFrom) (JNum yearTo))
  then RangeInvalid
  else
    let filtered := List.filter has_value filtered in
    (* the layer block is an empty placeholder *)
    let filtered :=
      if truthy (prop (Filters.layer filters))
         && negb (strict_eq (prop (Filters.layer filters)) (JStr "All"))
      then filtered
      else filtered in
    Filtered filtered.

Definition run (data : Data) (filters : Filters.t) : Outcome :=
  if no_data data then NoData
  else match data with
       | Array items => filter_rows items filters
       | _ => NoData
       end.

(** [renderPreview(rows)] *)
Definition renderPreview (rows : list DataPoint.t) (st : State) : State :=
  match rows with
  | [] => set_preview (NoDataDiv no_match_message) st
  | _ =>
      set_preview
        (Table ["Indicator"; "Country"; "Year"; "Value"; "Category"]
               rows None) st
  end.

(** [renderResults()] *)
Definition renderResults (st : State) : State :=
  renderPreview (take 10 (filteredData st))
    (renderSummary (length (filteredData st)) st).

(** [applyFilters(data = allIndicatorsData, filters = getFilters())] *)
Definition applyFilters (data : option Data) (filters : option Filters.t)
    (st : State) : State :=
  let data := data_or_default data st in
  let filters := default (getFilters st) filters in
  match run data filters with
  | NoData => show_no_data st
  | RangeInvalid => alert range_message st
  | Filtered filtered => renderResults (set_filteredData filtered st)
  end.


(** The part of [populateFilters] on the year range: the fixed years
    2015 to 2022. *)
Definition years : list Z := [2015; 2016; 2017; 2018; 2019; 2020; 2021; 2022].

Definition populateFilters_years (c : Controls) : Controls :=
  let values := map integer_to_string years in
  let yearFromSelect := append_options values (yearFromFilter c) in
  let yearToSelect := append_options values (yearToFilter c) in
  set_year_range (set_value "2015" yearFromSelect)
                 (set_value "2022" yearToSelect) c.


(** [populateFilters()], for [allIndicatorsData] the array [items].
    [None] when the string of a value is outside the fragment of
    [ToString] modelled. *)
Definition populateFilters (items : list DataPoint.t) (c : Controls)
  : option Controls :=
  match append_sorted (distinct (map DataPoint.country items)) (countryFilter c),
        append_sorted (distinct (map DataPoint.indicator items))
          (indicatorFilter c) with
  | Some countrySelect, Some indicatorSelect =>
      Some (populateFilters_years
              (set_indicatorFilter indicatorSelect
                 (set_countryFilter countrySelect c)))
  | _, _ => None
  end.

(** The [catch] block of [initDashboard]. *)
Definition show_error (message : string) (st : State) : State :=
  set_summary (SummaryMarkup (short_error_box message)) st.

(** [initDashboard()], given what the fetch gave and the message of the
    TypeError the engine raises on [allIndicatorsData.map] when the
    stored value has no such method. *)
Definition initDashboard (fetched : Fetched) (not_a_function : string)
    (st : State) : option State :=
  match fetch_document fetched with
  | inl message => Some (show_error message st)
  | inr document =>
      let st := set_allIndicatorsData (data_points_or_empty document) st in
      match allIndicatorsData st with
      | Array items =>
          match populateFilters items (controls st) with
          | Some c => Some (applyFilters None None (set_controls c st))
          | None => None
          end
      | _ => Some (show_error not_a_function st)
      end
  end.

(** The click handler of the [clearFilters] button. *)
Definition clearFilters_click (st : State) : State :=
  let c := controls st in
  let c := set_countryFilter (set_value "" (countryFilter c)) c in
  let c := set_indicatorFilter (set_value "" (indicatorFilter c)) c in
  let c := set_year_range (set_value "2015" (yearFromFilter c))
                          (set_value "2022" (yearToFilter c)) c in
  let c := set_layerFilter (set_value "" (layerFilter c)) c in
  applyFilters None None (set_controls c st).

(** The click handler of the [applyFilters] button. *)
Definition applyFilters_click (st : State) : State :=
  applyFilters None None st.

End ScriptJs.

(** ** src/unnamed/part_000 *)
Module Part000.

Definition getFilters (st : State) : Filters.t :=
  {| Filters.country := Some (selected (countryFilter (controls st)));
     Filters.indicator := Some (selected (indicatorFilter (controls st)));
     Filters.yearFrom := Some (selected (yearFromFilter (controls st)));
     Filters.yearTo := Some (selected (yearToFilter (controls st)));
     Filters.year := None;
     Filters.layer := Some (selected (layerFilter (controls st))) |}.

Definition filter_rows (data : list DataPoint.t) (filters : Filters.t)
  : Outcome :=
  let filtered := data in
  let filtered :=
    if truthy (prop (Filters.country filters)) then
      List.filter (fun d => strict_eq (DataPoint.country d)
                              (prop (Filters.country filters))) filtered
    else filtered in
  let filtered :=
    if truthy (prop (Filters.indicator filters)) then
      List.filter (fun d => strict_eq (DataPoint.indicator d)
                              (prop (Filters.indicator filters))) filtered
    else filtered in
  let filtered :=
    if truthy (prop (Filters.yearFrom filters)) then
      let yearFrom := parseInt (prop_to_string (Filters.yearFrom filters)) in
      List.filter (fun d => js_ge (DataPoint.year d) (JNum yearFrom)) filtered
    else filtered in
  let filtered :=
    if truthy (prop (Filters.yearTo filters)) then
      let yearTo := parseInt (prop_to_string (Filters.yearTo filters)) in
      List.filter (fun d => js_le (DataPoint.year d) (JNum yearTo)) filtered
    else filtered in
  if truthy (prop (Filters.yearFrom filters))
     && truthy (prop (Filters.yearTo filters))
     && (let yearFrom := parseInt (prop_to_string (Filters.yearFrom filters)) in
         let yearTo := parseInt (prop_to_string (Filters.yearTo filters)) in
         js_gt (JNum yearFrom) (JNum yearTo))
  then RangeInvalid
  else
    let filtered := List.filter has_value filtered in
    let filtered :=
      if truthy (prop (Filters.layer filters))
         && negb (strict_eq (prop (Filters.layer filters)) (JStr "All"))
      then
        List.filter (fun d => strict_eq (DataPoint.layer d)
                                (prop (Filters.layer filters))) filtered
      else filtered in
    Filtered filtered.

Definition run (data : Data) (filters : Filters.t) : Outcome :=
  if no_data data then NoData
  else match data with
       | Array items => filter_rows items filters
       | _ => NoData
       end.

Definition renderPreview (rows : list DataPoint.t) (st : State) : State :=
  match rows with
  | [] => set_preview (NoDataDiv no_match_message) st
  | _ =>
      set_preview
        (Table ["Indicator"; "Country"; "Year"; "Value"; "Category";
                "Layer"; "Unit"] rows None) st
  end.

Definition renderResults (st : State) : State :=
  renderPreview (filteredData st)
    (renderSummary (length (filteredData st)) st).

Definition applyFilters (data : option Data) (filters : option Filters.t)
    (st : State) : State :=
  let data := data_or_default data st in
  let filters := default (getFilters st) filters in
  match run data filters with
  | NoData => show_no_data st
  | RangeInvalid => alert range_message st
  | Filtered filtered => renderResults (set_filteredData filtered st)
  end.


(** The part of [populateFilters] on the year range, for
    [allIndicatorsData] the array [items]. [None] when the string of a
    year is outside the fragment of [ToString] modelled. *)
Definition populateFilters_years (items : list DataPoint.t) (c : Controls)
  : option Controls :=
  match derived_years items with
  | None => None
  | Some years =>
      match with_strings years with
      | None => None
      | Some keyed =>
          let values := map fst keyed in
          let yearFromSelect := append_options values (yearFromFilter c) in
          let yearToSelect := append_options values (yearToFilter c) in
          match head values, last values with
          | Some first, Some final =>   (* years.length > 0 *)
              Some (set_year_range (set_value first yearFromSelect)
                                   (set_value final yearToSelect) c)
          | _, _ => Some (set_year_range yearFromSelect yearToSelect c)
          end
      end
  end.


(** [populateFilters()], for [allIndicatorsData] the array [items]. *)
Definition populateFilters (items : list DataPoint.t) (c : Controls)
  : option Controls :=
  match append_sorted (distinct (map DataPoint.country items)) (countryFilter c),
        append_sorted (distinct (map DataPoint.indicator items))
          (indicatorFilter c) with
  | Some countrySelect, Some indicatorSelect =>
      match populateFilters_years items
              (set_indicatorFilter indicatorSelect
                 (set_countryFilter countrySelect c)) with
      | Some c =>
          match append_sorted
                  (List.filter
                     (fun l => truthy l && negb (strict_eq l (JStr "Unknown")))
                     (distinct (map DataPoint.layer items)))
                  (layerFilter c) with
          | Some layerSelect => Some (set_layerFilter layerSelect c)
          | None => None
          end
      | None => None
      end
  | _, _ => None
  end.

(** [populateEmptyFilters()] *)
Definition populateEmptyFilters (st : State) : State :=
  set_preview (NoDataDiv run_script_message)
    (set_controls (empty_controls_5 (controls st)) st).

(** The [catch] block of [initDashboard]. *)
Definition show_error (message : string) (st : State) : State :=
  populateEmptyFilters
    (set_summary (SummaryMarkup (long_error_box message)) st).

Definition initDashboard (fetched : Fetched) (not_a_function : string)
    (st : State) : option State :=
  match fetch_document fetched with
  | inl message => Some (show_error message st)
  | inr document =>
      let st := set_allIndicatorsData (data_points_or_empty document) st in
      match allIndicatorsData st with
      | Array items =>
          match populateFilters items (controls st) with
          | Some c => Some (applyFilters None None (set_controls c st))
          | None => None
          end
      | _ => Some (show_error not_a_function st)
      end
  end.

(** The click handler of the [clearFilters] button. When the stored
    value is no array, [allIndicatorsData.map] raises a TypeError that
    ends the handler after the first two assignments. *)
Definition clearFilters_click (st : State) : option State :=
  let c := controls st in
  let c := set_countryFilter (set_value "" (countryFilter c)) c in
  let c := set_indicatorFilter (set_value "" (indicatorFilter c)) c in
  match allIndicatorsData st with
  | Array items =>
      match derived_years items with
      | None => None
      | Some years =>
          match with_strings years with
          | None => None
          | Some keyed =>
              let values := map fst keyed in
              let c :=
                match head values, last values with
                | Some first, Some final =>   (* years.length > 0 *)
                    set_year_range (set_value first (yearFromFilter c))
                                   (set_value final (yearToFilter c)) c
                | _, _ => c
                end in
              let c := set_layerFilter (set_value "" (layerFilter c)) c in
              Some (applyFilters None None (set_controls c st))
          end
      end
  | _ => Some (set_controls c st)
  end.

Definition applyFilters_click (st : State) : State :=
  applyFilters None None st.

End Part000.

(** ** src/unnamed/part_001 *)
Module Part001.

Definition getFilters (st : State) : Filters.t :=
  {| Filters.country := Some (selected (countryFilter (controls st)));
     Filters.indicator := Some (selected (indicatorFilter (controls st)));
     Filters.yearFrom := None;
     Filters.yearTo := None;
     Filters.year := Some (selected (yearFilter (controls st)));
     Filters.layer := None |}.

Definition filter_rows (data : list DataPoint.t) (filters : Filters.t)
  : Outcome :=
  let filtered := data in
  let filtered :=
    if truthy (prop (Filters.country filters)) then
      List.filter (fun d => strict_eq (DataPoint.country d)
                              (prop (Filters.country filters))) filtered
    else filtered in
  let filtered :=
    if truthy (prop (Filters.indicator filters)) then
      List.filter (fun d => strict_eq (DataPoint.indicator d)
                              (prop (Filters.indicator filters))) filtered
    else filtered in
  let filtered :=
    if truthy (prop (Filters.year filters)) then
      let year := parseInt (prop_to_string (Filters.year filters)) in
      List.filter (fun d => strict_eq (DataPoint.year d) (JNum year)) filtered
    else filtered in
  let filtered := List.filter has_value filtered in
  Filtered filtered.

Definition run (data : Data) (filters : Filters.t) : Outcome :=
  if no_data data then NoData
  else match data with
       | Array items => filter_rows items filters
       | _ => NoData
       end.

Definition maxPreviewRows : nat := 255.

Definition renderPreview (rows : list DataPoint.t) (st : State) : State :=
  match rows with
  | [] => set_preview (NoDataDiv no_match_message) st
  | _ =>
      let displayRows := take maxPreviewRows rows in
      let hasMoreData := (maxPreviewRows <? length rows)%nat in
      set_preview
        (Table ["Indicator"; "Country"; "Year"; "Value"; "Category";
                "Layer"; "Unit"] displayRows
               (if hasMoreData then Some (maxPreviewRows, length rows)
                else None)) st
  end.

Definition renderResults (st : State) : State :=
  renderPreview (filteredData st)
    (renderSummary (length (filteredData st)) st).

Definition applyFilters (data : option Data) (filters : option Filters.t)
    (st : State) : State :=
  let data := data_or_default data st in
  let filters := default (getFilters st) filters in
  match run data filters with
  | NoData => show_no_data st
  | RangeInvalid => alert range_message st   (* no such exit in this variant *)
  | Filtered filtered => renderResults (set_filteredData filtered st)
  end.

(** The part of [populateFilters] on the year filter. *)
Definition populateFilters_years (items : list DataPoint.t) (c : Controls)
  : option Controls :=
  match derived_years items with
  | None => None
  | Some years =>
      match with_strings years with
      | None => None
      | Some keyed =>
          Some (set_yearFilter
                  (append_options (map fst keyed) (yearFilter c)) c)
      end
  end.


(** [populateFilters()], for [allIndicatorsData] the array [items] and
    [metadata.indicators] the array [manifest], when there is one. The
    indicator select is emptied to its first option before it is filled,
    and a test option is appended to it. *)
Definition populateFilters (items : list DataPoint.t)
    (manifest : option (list JsVal)) (c : Controls) : option Controls :=
  let indicators :=
    match manifest with
    | Some ((_ :: _) as listed) => listed
    | _ => distinct (map DataPoint.indicator items)
    end in
  match append_sorted (distinct (map DataPoint.country items)) (countryFilter c),
        append_sorted indicators single_empty_option with
  | Some countrySelect, Some indicatorSelect =>
      populateFilters_years items
        (set_indicatorFilter (appendChild "TEST_INDICATOR" indicatorSelect)
           (set_countryFilter countrySelect c))
  | _, _ => None
  end.

(** [populateEmptyFilters()] *)
Definition populateEmptyFilters (st : State) : State :=
  set_preview (NoDataDiv run_script_message)
    (set_controls (empty_controls_3 (controls st)) st).

(** The [catch] block of [initDashboard]. *)
Definition show_error (message : string) (st : State) : State :=
  populateEmptyFilters
    (set_summary (SummaryMarkup (long_error_box message)) st).

(** [initDashboard()]. The document is no longer loading when the
    function runs, as it is called from the DOMContentLoaded handler. *)
Definition initDashboard (fetched : Fetched) (not_a_function : string)
    (st : State) : option State :=
  match fetch_document fetched with
  | inl message => Some (show_error message st)
  | inr document =>
      let st := set_allIndicatorsData (data_points_or_empty document) st in
      match allIndicatorsData st with
      | Array items =>
          match populateFilters items (indicators document) (controls st) with
          | Some c => Some (applyFilters None None (set_controls c st))
          | None => None
          end
      | _ => Some (show_error not_a_function st)
      end
  end.

(** The click handler of the [clearFilters] button. *)
Definition clearFilters_click (st : State) : State :=
  let c := controls st in
  let c := set_countryFilter (set_value "" (countryFilter c)) c in
  let c := set_indicatorFilter (set_value "" (indicatorFilter c)) c in
  let c := set_yearFilter (set_value "" (yearFilter c)) c in
  applyFilters None None (set_controls c st).


End Part001.

(** ** The three variants side by side *)

Inductive Variant : Type := script_js | part_000 | part_001.

Definition getFilters (v : Variant) : State -> Filters.t :=
  match v with
  | script_js => ScriptJs.getFilters
  | part_000 => Part000.getFilters
  | part_001 => Part001.getFilters
  end.

Definition filter_rows (v : Variant)
  : list DataPoint.t -> Filters.t -> Outcome :=
  match v with
  | script_js => ScriptJs.filter_rows
  | part_000 => Part000.filter_rows
  | part_001 => Part001.filter_rows
  end.

Definition run (v : Variant) : Data -> Filters.t -> Outcome :=
  match v with
  | script_js => ScriptJs.run
  | part_000 => Part000.run
  | part_001 => Part001.run
  end.

Definition renderResults (v : Variant) : State -> State :=
  match v with
  | script_js => ScriptJs.renderResults
  | part_000 => Part000.renderResults
  | part_001 => Part001.renderResults
  end.

Definition applyFilters (v : Variant)
  : option Data -> option Filters.t -> State -> State :=
  match v with
  | script_js => ScriptJs.applyFilters
  | part_000 => Part000.applyFilters
  | part_001 => Part001.applyFilters
  end.

(** The variants with a year range ([yearFrom], [yearTo]); the third has
    the exact [year]. *)
Definition range_mode (v : Variant) : bool :=
  match v with
  | part_001 => false
  | _ => true
  end.

(** The variant whose layer block filters. *)
Definition layer_applied (v : Variant) : bool :=
  match v with
  | part_000 => true
  | _ => false
  end.

(** ** The predicates of the specification

    The filter as the specification words it: one conjunction of
    predicates on a record, each active when its field of the spec is
    set. *)

(** A field of the spec is set when it is present and not empty. *)
Definition is_set (field : option string) : bool :=
  match field with
  | Some s => negb (String.eqb s "")
  | None => false
  end.

(** Exact string equality: the value is the string [s] itself. *)
Definition equals_string (v : JsVal) (s : string) : bool :=
  match v with
  | JStr t => String.eqb t s
  | _ => false
  end.

(** "keep iff the field of the spec is empty or the record's equals it" *)
Definition matches (field : option string) (v : JsVal) : bool :=
  match field with
  | Some s => if String.eqb s "" then true else equals_string v s
  | None => true
  end.

(** The number a year field of the spec stands for. *)
Definition bound (field : option string) : JsVal :=
  JNum (parseInt (prop_to_string field)).

(** "spec.yearFrom empty or record.year >= spec.yearFrom" *)
Definition from_ok (f : Filters.t) (r : DataPoint.t) : bool :=
  if is_set (Filters.yearFrom f)
  then js_ge (DataPoint.year r) (bound (Filters.yearFrom f)) else true.

(** "spec.yearTo empty or record.year <= spec.yearTo" *)
Definition to_ok (f : Filters.t) (r : DataPoint.t) : bool :=
  if is_set (Filters.yearTo f)
  then js_le (DataPoint.year r) (bound (Filters.yearTo f)) else true.

(** "spec.year empty or record.year == spec.year" *)
Definition exact_ok (f : Filters.t) (r : DataPoint.t) : bool :=
  if is_set (Filters.year f)
  then strict_eq (DataPoint.year r) (bound (Filters.year f)) else true.

Definition year_ok (v : Variant) (f : Filters.t) (r : DataPoint.t) : bool :=
  if range_mode v then from_ok f r && to_ok f r else exact_ok f r.

(** "keep iff spec.layer is empty or the sentinel All or the record's
    layer equals it" *)
Definition layer_ok (f : Filters.t) (r : DataPoint.t) : bool :=
  match Filters.layer f with
  | Some s =>
      if String.eqb s "" || String.eqb s "All" then true
      else equals_string (DataPoint.layer r) s
  | None => true
  end.

(** The value is null, undefined or not a number. *)
Definition value_missing (r : DataPoint.t) : bool :=
  match DataPoint.value r with
  | JNull | JUndefined => true
  | v => isNaN v
  end.

(** Both bounds are set and the lower one is the greater. *)
Definition range_inverted (f : Filters.t) : bool :=
  is_set (Filters.yearFrom f) && is_set (Filters.yearTo f)
  && js_gt (bound (Filters.yearFrom f)) (bound (Filters.yearTo f)).

(** The conjunction a variant applies. *)
Definition keeps (v : Variant) (f : Filters.t) (r : DataPoint.t) : bool :=
  matches (Filters.country f) (DataPoint.country r)
  && matches (Filters.indicator f) (DataPoint.indicator r)
  && year_ok v f r
  && negb (value_missing r)
  && (if layer_applied v then layer_ok f r else true).

(** The data given is empty or not a sequence. *)
Definition degenerate (data : Data) : Prop :=
  match data with
  | Array items => items = []
  | _ => True
  end.

Definition with_layer (l : option string) (f : Filters.t) : Filters.t :=
  {| Filters.country := Filters.country f;
     Filters.indicator := Filters.indicator f;
     Filters.yearFrom := Filters.yearFrom f;
     Filters.yearTo := Filters.yearTo f;
     Filters.year := Filters.year f;
     Filters.layer := l |}.

(** A year constraint of the spec is one the variant reads. *)
Definition year_active (v : Variant) (f : Filters.t) : bool :=
  if range_mode v
  then is_set (Filters.yearFrom f) || is_set (Filters.yearTo f)
  else is_set (Filters.year f).

Definition with_year (y : JsVal) (r : DataPoint.t) : DataPoint.t :=
  {| DataPoint.indicator := DataPoint.indicator r;
     DataPoint.country := DataPoint.country r;
     DataPoint.year := y;
     DataPoint.value := DataPoint.value r;
     DataPoint.category := DataPoint.category r;
     DataPoint.subcategory := DataPoint.subcategory r;
     DataPoint.layer := DataPoint.layer r;
     DataPoint.unit := DataPoint.unit r |}.



(** A decimal digit. *)
Definition is_digit (d : Z) : Prop := 0 <= d <= 9.

(** A year as the dataset has them: an integer of four digits. *)
Definition four_digits (z : Z) : Prop := 1000 <= z <= 9999.

Definition four_digit_year (y : JsVal) : Prop :=
  exists z, y = JInt z /\ four_digits z.

(** Numeric insertion sort, against which the default sort is compared. *)
Fixpoint insert_Z (z : Z) (sorted : list Z) : list Z :=
  match sorted with
  | [] => [z]
  | y :: sorted' =>
      match Z.compare y z with
      | Lt => y :: insert_Z z sorted'
      | _ => z :: sorted
      end
  end.

Definition sort_Z (l : list Z) : list Z := fold_right insert_Z [] l.

(** A number with its string, as the default sort sees it. *)
Definition keyed (z : Z) : string * JsVal := (integer_to_string z, JInt z).

(** The integer a year stands for, for a year that is an integer. *)
Definition year_number (y : JsVal) : Z :=
  match y with
  | JNum (Fin q) => Qnum q
  | _ => 0
  end.

(** No member of the list is the SameValueZero of an earlier one; the
    list is given latest first. *)
Fixpoint distinct_members (latest_first : list JsVal) : Prop :=
  match latest_first with
  | [] => True
  | v :: earlier =>
      (forall m, In m earlier -> same_value_zero v m = false)
      /\ distinct_members earlier
  end.

(** ** Relaxing a spec *)

(** A field is relaxed when it is left as it is or no longer set. *)
Definition field_relaxed (g f : option string) : Prop :=
  is_set g = false \/ g = f.

(** The spec [g] asks no more than the spec [f]. *)
Definition relaxes (g f : Filters.t) : Prop :=
  field_relaxed (Filters.country g) (Filters.country f)
  /\ field_relaxed (Filters.indicator g) (Filters.indicator f)
  /\ field_relaxed (Filters.yearFrom g) (Filters.yearFrom f)
  /\ field_relaxed (Filters.yearTo g) (Filters.yearTo f)
  /\ field_relaxed (Filters.year g) (Filters.year f)
  /\ (field_relaxed (Filters.layer g) (Filters.layer f)
      \/ Filters.layer g = Some "All").

(** The year of the record is a number. *)
Definition numeric_year (r : DataPoint.t) : Prop :=
  exists n, DataPoint.year r = JNum n.

(** The spec of a year range, and the spec of an exact year. *)
Definition range_spec (country indicator yearFrom yearTo : option string)
  : Filters.t :=
  Filters.make country indicator yearFrom yearTo None None.

Definition exact_spec (country indicator year : option string) : Filters.t :=
  Filters.make country indicator None None year None.

(** ** The order of the option lists *)

Definition string_lt (s t : string) : Prop := string_compare s t = Lt.

Definition string_le (s t : string) : Prop := string_compare s t <> Gt.

(** Insertion sort of strings by code units, against which the default
    sort of string values is compared. *)
Fixpoint insert_string (s : string) (sorted : list string) : list string :=
  match sorted with
  | [] => [s]
  | t :: sorted' =>
      match string_compare t s with
      | Lt => t :: insert_string s sorted'
      | _ => s :: sorted
      end
  end.

Definition sort_strings (l : list string) : list string :=
  fold_right insert_string [] l.

(** A string value with its string, as the default sort sees it. *)
Definition string_keyed (s : string) : string * JsVal := (s, JStr s).

(** The string a string value holds. *)
Definition string_of (v : JsVal) : string :=
  match v with
  | JStr s => s
  | _ => ""
  end.

Definition is_string (v : JsVal) : Prop := exists s, v = JStr s.

(** The layers offered: [l && l !== 'Unknown'] *)
Definition offered_layer (l : JsVal) : bool :=
  truthy l && negb (strict_eq l (JStr "Unknown")).

(** ** Records and pages as the dashboard expects them *)

(** A record of the dataset: country and indicator are strings, the
    year is a four-digit integer unless it is falsy (missing, null, 0),
    and the layer is a string unless it is falsy. *)
Definition well_formed (r : DataPoint.t) : Prop :=
  is_string (DataPoint.country r)
  /\ is_string (DataPoint.indicator r)
  /\ (truthy (DataPoint.year r) = true -> four_digit_year (DataPoint.year r))
  /\ (truthy (DataPoint.layer r) = true -> is_string (DataPoint.layer r)).

(** A select showing its option of empty value ("All ..."). *)
Definition shows_all (sel : Select) : Prop :=
  selected sel = "" /\ In "" (options sel).

(** ** The page after the load *)





(** ** Sample inputs *)

(** The page as loaded, before any data has arrived. *)
Definition empty_select : Select := {| options := []; selected := "" |}.

Definition initial_state : State :=
  {| allIndicatorsData := Array [];
     filteredData := [];
     controls :=
       {| countryFilter := empty_select; indicatorFilter := empty_select;
          yearFromFilter := empty_select; yearToFilter := empty_select;
          yearFilter := empty_select; layerFilter := empty_select |};
     summary := SummaryMarkup "";
     preview := PreviewMarkup "";
     alerts := [] |}.

(** A data point of the indicator "Energy availability". *)
Definition point (country : string) (year value layer : JsVal) : DataPoint.t :=
  {| DataPoint.indicator := JStr "Energy availability";
     DataPoint.country := JStr country;
     DataPoint.year := year;
     DataPoint.value := value;
     DataPoint.category := JStr "Foundational Capabilities";
     DataPoint.subcategory := JStr "Enabling Infrastructure - Energy";
     DataPoint.layer := layer;
     DataPoint.unit := JStr "kWh per capita" |}.

Definition albania_2019 : DataPoint.t :=
  point "Albania" (JInt 2019) (JInt 5) (JStr "Intermediate").

Definition serbia_2019 : DataPoint.t :=
  point "Serbia" (JInt 2019) (JInt 7) (JStr "Basic").

(** A record whose year is [null]. *)
Definition serbia_null_year : DataPoint.t :=
  point "Serbia" JNull (JInt 7) (JStr "Basic").

Definition albania_2010 : DataPoint.t :=
  point "Albania" (JInt 2010) (JInt 4) (JStr "Basic").

Definition albania_999 : DataPoint.t :=
  point "Albania" (JInt 999) (JInt 3) (JStr "Basic").

Definition initial_controls : Controls := controls initial_state.

(** The spec [{yearFrom: "2020", yearTo: "2015"}]. *)
Definition inverted_range : Filters.t :=
  Filters.make None None (Some "2020") (Some "2015") None None.

(** The spec [{yearFrom: "", yearTo: "2022"}]. *)
Definition up_to_2022 : Filters.t :=
  Filters.make None None (Some "") (Some "2022") None None.

(** The spec [{layer: "Basic"}]. *)
Definition basic_layer : Filters.t :=
  Filters.make None None None None None (Some "Basic").

(** * Properties *)

(** ** Lists *)

Lemma filter_filter {A} (p q : A -> bool) (l : list A) :
  List.filter p (List.filter q l) = List.filter (fun x => q x && p x) l.
Proof.
  induction l as [|x l IH]; simpl; [reflexivity|].
  destruct (q x); simpl; [destruct (p x)|]; congruence.
Qed.

Lemma filter_when {A} (b : bool) (p : A -> bool) (l : list A) :
  (if b then List.filter p l else l)
  = List.filter (fun x => if b then p x else true) l.
Proof.
  destruct b; [reflexivity|].
  induction l as [|x l IH]; simpl; congruence.
Qed.

Lemma filter_sublist {A} (p : A -> bool) (l : list A) :
  sublist (List.filter p l) l.
Proof.
  induction l as [|x l IH]; simpl.
  - constructor.
  - destruct (p x); [apply sublist_skip | apply sublist_cons]; exact IH.
Qed.

(** ** The operators against the predicates of the specification *)

Lemma truthy_prop field : truthy (prop field) = is_set field.
Proof. destruct field; reflexivity. Qed.

Lemma strict_eq_prop v s : strict_eq v (prop (Some s)) = equals_string v s.
Proof. destruct v; reflexivity. Qed.

Lemma equals_string_eq v s : equals_string v s = true <-> v = JStr s.
Proof.
  destruct v; simpl; try (split; [discriminate | intros H; discriminate H]).
  rewrite String.eqb_eq. split; [intros ->; reflexivity | congruence].
Qed.

Lemma has_value_missing r : has_value r = negb (value_missing r).
Proof.
  unfold has_value, value_missing.
  destruct (DataPoint.value r) as [| |b|n|s]; simpl; try reflexivity.
  all: destruct (isNaN _); reflexivity.
Qed.

Lemma matches_filter field v :
  (if is_set field then strict_eq v (prop field) else true)
  = matches field v.
Proof.
  destruct field as [s|]; simpl; [|reflexivity].
  destruct (String.eqb s ""); simpl; [reflexivity|].
  destruct v; reflexivity.
Qed.

Lemma layer_filter f r :
  (if is_set (Filters.layer f)
      && negb (strict_eq (prop (Filters.layer f)) (JStr "All"))
   then strict_eq (DataPoint.layer r) (prop (Filters.layer f)) else true)
  = layer_ok f r.
Proof.
  unfold layer_ok. destruct (Filters.layer f) as [s|]; simpl; [|reflexivity].
  destruct (String.eqb s ""); simpl; [reflexivity|].
  destruct (String.eqb s "All"); simpl; [reflexivity|].
  destruct (DataPoint.layer r); reflexivity.
Qed.

(** ** [applyFilters] is the conjunction, behind the two guards *)

Ltac fuse_passes :=
  repeat rewrite filter_when; repeat rewrite filter_filter;
  apply List.filter_ext; intros r.

Ltac same_conjunction :=
  rewrite ?matches_filter, ?layer_filter, ?has_value_missing;
  repeat match goal with
         | |- context [if ?b then _ else _] => destruct b
         end;
  btauto.

Lemma filter_rows_spec v items f :
  filter_rows v items f
  = if range_mode v && range_inverted f then RangeInvalid
    else Filtered (List.filter (keeps v f) items).
Proof.
  destruct v; simpl range_mode; cbv beta iota.
  - unfold filter_rows, ScriptJs.filter_rows, range_inverted, bound.
    cbv zeta. rewrite !truthy_prop. simpl andb at 1.
    destruct (_ && _ && js_gt _ _); [reflexivity|]. f_equal.
    destruct (is_set (Filters.layer f) && _).
    all: fuse_passes.
    all: unfold keeps, year_ok, from_ok, to_ok, bound; simpl.
    all: same_conjunction.
  - unfold filter_rows, Part000.filter_rows, range_inverted, bound.
    cbv zeta. rewrite !truthy_prop. simpl andb at 1.
    destruct (_ && _ && js_gt _ _); [reflexivity|]. f_equal.
    fuse_passes.
    unfold keeps, year_ok, from_ok, to_ok, bound; simpl.
    same_conjunction.
  - unfold filter_rows, Part001.filter_rows.
    cbv zeta. rewrite !truthy_prop. f_equal.
    fuse_passes.
    unfold keeps, year_ok, exact_ok, bound; simpl.
    same_conjunction.
Qed.

Lemma run_spec v data f :
  run v data f
  = match data with
    | Array (r :: items) => filter_rows v (r :: items) f
    | _ => NoData
    end.
Proof. destruct v, data as [x| |[|r items]]; reflexivity. Qed.

Lemma applyFilters_spec v arg filters st :
  applyFilters v arg filters st
  = match run v (data_or_default arg st) (default (getFilters v st) filters) with
    | NoData => show_no_data st
    | RangeInvalid => alert range_message st
    | Filtered filtered => renderResults v (set_filteredData filtered st)
    end.
Proof. destruct v; reflexivity. Qed.

Lemma run_Filtered v data f out :
  run v data f = Filtered out ->
  exists items, data = Array items /\ items <> []
    /\ (range_mode v && range_inverted f) = false
    /\ out = List.filter (keeps v f) items.
Proof.
  rewrite run_spec. destruct data as [x| |[|r items]]; try discriminate.
  rewrite filter_rows_spec.
  destruct (range_mode v && range_inverted f); [discriminate|].
  intros [= <-]. exists (r :: items). repeat split; congruence.
Qed.

Lemma run_nonempty v items f :
  items <> [] ->
  run v (Array items) f
  = if range_mode v && range_inverted f then RangeInvalid
    else Filtered (List.filter (keeps v f) items).
Proof.
  intros Hne. rewrite run_spec. destruct items; [congruence|].
  apply filter_rows_spec.
Qed.

Lemma filteredData_renderResults v st :
  filteredData (renderResults v st) = filteredData st.
Proof.
  destruct v; simpl.
  - unfold ScriptJs.renderResults, ScriptJs.renderPreview.
    now destruct (take 10 _).
  - unfold Part000.renderResults, Part000.renderPreview.
    now destruct (filteredData st) eqn:E.
  - unfold Part001.renderResults, Part001.renderPreview.
    now destruct (filteredData st) eqn:E.
Qed.

(** ** Integers: the years and bounds of the specification *)

Ltac each_digit d H :=
  let E := fresh in
  assert (E : d = 0 \/ d = 1 \/ d = 2 \/ d = 3 \/ d = 4 \/ d = 5 \/ d = 6
              \/ d = 7 \/ d = 8 \/ d = 9) by (unfold is_digit in H; lia);
  clear H;
  repeat (destruct E as [-> | E]); try subst d.

Lemma digit_in_digit_char d : is_digit d -> digit_in 10 (digit_char d) = Some d.
Proof. intros H. each_digit d H; reflexivity. Qed.

Lemma span_digits_decimal ds :
  Forall is_digit ds -> span_digits 10 (map digit_char ds) = (ds, []).
Proof.
  induction 1 as [|d ds Hd _ IH]; [reflexivity|].
  cbn [map span_digits]. now rewrite digit_in_digit_char, IH.
Qed.

Lemma skip_white_space_digit d rest :
  is_digit d -> skip_white_space (digit_char d :: rest) = digit_char d :: rest.
Proof. intros H. each_digit d H; reflexivity. Qed.

Lemma strip_sign_digit d rest :
  is_digit d -> strip_sign (digit_char d :: rest) = (false, digit_char d :: rest).
Proof. intros H. each_digit d H; reflexivity. Qed.

Lemma strip_hex_prefix_digits ds :
  Forall is_digit ds ->
  strip_hex_prefix (map digit_char ds) = (10, map digit_char ds).
Proof.
  intros H. destruct H as [|d ds Hd Hds]; [reflexivity|].
  destruct Hds as [|e ds He Hds]; cbn [map].
  - each_digit d Hd; reflexivity.
  - each_digit d Hd; try reflexivity. each_digit e He; reflexivity.
Qed.

Lemma digits_to_Z_snoc ds d :
  digits_to_Z 10 (ds ++ [d]) = digits_to_Z 10 ds * 10 + d.
Proof. unfold digits_to_Z. now rewrite fold_left_app. Qed.

(** With fuel for its digits, a number is printed in full. *)
Lemma decimal_digits_spec fuel n acc :
  fuel <> O -> 0 <= n < 10 ^ Z.of_nat fuel ->
  exists ds,
    decimal_digits fuel n acc = map digit_char ds ++ acc
    /\ ds <> [] /\ Forall is_digit ds /\ digits_to_Z 10 ds = n.
Proof.
  revert n acc. induction fuel as [|fuel IH]; intros n acc Hfuel Hn;
    [congruence|].
  cbn [decimal_digits]. destruct (Z.ltb_spec n 10) as [Hlt|Hge].
  - exists [n]. rewrite Z.mod_small by lia.
    split; [reflexivity|]. split; [discriminate|].
    split; [repeat constructor; unfold is_digit; lia|].
    unfold digits_to_Z. simpl. lia.
  - assert (Hfuel' : fuel <> O).
    { intros ->. change (10 ^ Z.of_nat 1) with 10 in Hn. lia. }
    assert (Hn' : 0 <= n / 10 < 10 ^ Z.of_nat fuel).
    { rewrite Nat2Z.inj_succ, Z.pow_succ_r in Hn by lia.
      split; [apply Z.div_pos; lia|].
      apply Z.div_lt_upper_bound; lia. }
    destruct (IH (n / 10) (digit_char (n mod 10) :: acc) Hfuel' Hn')
      as (ds & -> & Hne & Hds & Hval).
    exists (ds ++ [n mod 10]).
    split; [rewrite map_app, <- app_assoc; reflexivity|].
    split; [now destruct ds|]. split.
    + apply Forall_app. split; [exact Hds|].
      constructor; [|constructor]. unfold is_digit.
      pose proof (Z.mod_pos_bound n 10). lia.
    + rewrite digits_to_Z_snoc, Hval.
      pose proof (Z.div_mod n 10). lia.
Qed.

Lemma parseInt_digits (negative : bool) (ds : list Z) :
  ds <> [] -> Forall is_digit ds ->
  parseInt (string_of_list_ascii
              ((if negative then ["-"%char] else []) ++ map digit_char ds))
  = Fin (inject_Z (if negative then - digits_to_Z 10 ds
                   else digits_to_Z 10 ds)).
Proof.
  intros Hne Hds. unfold parseInt, chars.
  rewrite list_ascii_of_string_of_list_ascii.
  destruct ds as [|d ds]; [congruence|].
  pose proof (Forall_inv Hds) as Hd.
  replace (strip_sign (skip_white_space
             ((if negative then ["-"%char] else []) ++ map digit_char (d :: ds))))
    with (negative, map digit_char (d :: ds)).
  - rewrite strip_hex_prefix_digits, span_digits_decimal by assumption.
    reflexivity.
  - destruct negative; cbn [app map].
    + change (skip_white_space ("-"%char :: ?l)) with ("-"%char :: l).
      reflexivity.
    + now rewrite skip_white_space_digit, strip_sign_digit.
Qed.

(** The decimal string of an integer reads back as the integer. *)
Lemma parseInt_integer_to_string z :
  Z.abs z < 10 ^ 21 -> parseInt (integer_to_string z) = Fin (inject_Z z).
Proof.
  intros Hz. unfold integer_to_string.
  destruct (decimal_digits_spec 21 (Z.abs z) []) as (ds & -> & Hne & Hds & Hval);
    [discriminate | change (Z.of_nat 21) with 21; lia |].
  rewrite app_nil_r.
  destruct (Z.ltb_spec z 0) as [Hneg|Hpos].
  - change ("-" ++ string_of_list_ascii (map digit_char ds))%string
      with (string_of_list_ascii (["-"%char] ++ map digit_char ds)).
    rewrite (parseInt_digits true) by assumption.
    rewrite Hval. do 2 f_equal. lia.
  - change (string_of_list_ascii (map digit_char ds))
      with (string_of_list_ascii ([] ++ map digit_char ds)).
    rewrite (parseInt_digits false) by assumption.
    rewrite Hval. do 2 f_equal. lia.
Qed.

Lemma is_set_integer z : is_set (Some (integer_to_string z)) = true.
Proof.
  unfold is_set, integer_to_string.
  destruct (z <? 0); [reflexivity|].
  cbn [decimal_digits]. destruct (Z.abs z <? 10); [reflexivity|].
  cbn [decimal_digits].
  repeat (destruct (_ <? 10); [reflexivity|]). reflexivity.
Qed.

Lemma bound_integer z :
  Z.abs z < 10 ^ 21 -> bound (Some (integer_to_string z)) = JInt z.
Proof.
  intros Hz. unfold bound, prop_to_string.
  now rewrite parseInt_integer_to_string.
Qed.

Lemma js_compare_JInt a b : js_compare (JInt a) (JInt b) = Some (a ?= b).
Proof.
  unfold js_compare, JInt, ToNumber, num_compare, Qcompare. simpl.
  now rewrite !Z.mul_1_r.
Qed.

Lemma js_ge_JInt a b : js_ge (JInt a) (JInt b) = (b <=? a).
Proof.
  unfold js_ge. rewrite js_compare_JInt.
  destruct (Z.compare_spec a b), (Z.leb_spec b a); try reflexivity; lia.
Qed.

Lemma js_le_JInt a b : js_le (JInt a) (JInt b) = (a <=? b).
Proof.
  unfold js_le. rewrite js_compare_JInt.
  destruct (Z.compare_spec a b), (Z.leb_spec a b); try reflexivity; lia.
Qed.

Lemma js_gt_JInt a b : js_gt (JInt a) (JInt b) = (b <? a).
Proof.
  unfold js_gt. rewrite js_compare_JInt.
  destruct (Z.compare_spec a b), (Z.ltb_spec b a); try reflexivity; lia.
Qed.

Lemma strict_eq_JInt a b : strict_eq (JInt a) (JInt b) = (a =? b).
Proof.
  unfold strict_eq, JInt, num_eqb. fold (JInt a) (JInt b).
  change (num_compare (Fin (inject_Z a)) (Fin (inject_Z b)))
    with (js_compare (JInt a) (JInt b)).
  rewrite js_compare_JInt.
  destruct (Z.compare_spec a b), (Z.eqb_spec a b); try reflexivity; lia.
Qed.

(** On an integer year and integer bounds given by their decimal
    strings, the year predicates are the comparisons of the integers. *)
Lemma year_predicates_integers f r y lo hi exact :
  DataPoint.year r = JInt y ->
  Z.abs lo < 10 ^ 21 -> Z.abs hi < 10 ^ 21 -> Z.abs exact < 10 ^ 21 ->
  Filters.yearFrom f = Some (integer_to_string lo) ->
  Filters.yearTo f = Some (integer_to_string hi) ->
  Filters.year f = Some (integer_to_string exact) ->
  from_ok f r = (lo <=? y) /\ to_ok f r = (y <=? hi)
  /\ exact_ok f r = (y =? exact) /\ range_inverted f = (hi <? lo).
Proof.
  intros Hy Hlo Hhi Hexact Hfrom Hto Hyear.
  unfold from_ok, to_ok, exact_ok, range_inverted.
  rewrite Hy, Hfrom, Hto, Hyear, !is_set_integer, !bound_integer by assumption.
  now rewrite js_ge_JInt, js_le_JInt, js_gt_JInt, strict_eq_JInt.
Qed.

(** ** The examples of the specification, in each variant *)

Example example_1_country (v : Variant) :
  run v (Array [albania_2019; serbia_2019])
    (Filters.make (Some "Albania") None None None None None)
  = Filtered [albania_2019].
Proof. destruct v; reflexivity. Qed.

Example example_2_NaN_value (v : Variant) :
  run v (Array [albania_2019; point "Serbia" (JInt 2019) (JNum NaN) JUndefined])
    Filters.empty
  = Filtered [albania_2019].
Proof. destruct v; reflexivity. Qed.

Example example_3_inverted_range :
  run script_js (Array [albania_2019; serbia_2019]) inverted_range = RangeInvalid
  /\ run part_000 (Array [albania_2019; serbia_2019]) inverted_range
     = RangeInvalid.
Proof. split; reflexivity. Qed.

Example example_4_no_records (v : Variant) (f : Filters.t) :
  run v (Array []) f = NoData.
Proof. destruct v; reflexivity. Qed.

Example example_5_layer_All (v : Variant) :
  run v (Array [albania_2019; serbia_2019])
    (Filters.make None None None None None (Some "All"))
  = run v (Array [albania_2019; serbia_2019]) Filters.empty.
Proof. destruct v; reflexivity. Qed.

(** A call without the [data] argument, or with [undefined] for it,
    works on the stored data set. *)
Example default_data (v : Variant) (f : Filters.t) (st : State) :
  applyFilters v None (Some f) st
  = applyFilters v (Some (allIndicatorsData st)) (Some f) st
  /\ applyFilters v (Some (Primitive JUndefined)) (Some f) st
     = applyFilters v None (Some f) st.
Proof.
  rewrite !applyFilters_spec. split; [|reflexivity].
  simpl data_or_default.
  now destruct (allIndicatorsData st) as [[]| |].
Qed.

(** ** C1: an inverted year range *)

(** C1, as stated, fails on an empty record sequence: the check on the
    data comes first, so the inverted range [{yearFrom: "2020", yearTo:
    "2015"}] on [[]] ends in the no-data message, without the alert. *)
Lemma C1_counterexample_empty_data :
  range_inverted inverted_range = true
  /\ run script_js (Array []) inverted_range = NoData
  /\ applyFilters script_js (Some (Array [])) (Some inverted_range) initial_state
     = show_no_data initial_state
  /\ alerts (applyFilters script_js (Some (Array [])) (Some inverted_range)
               initial_state) = [].
Proof. repeat split. Qed.

(** C1, amended: in the variants with a year range, for every non-empty
    record sequence and every spec whose two bounds are set with
    yearFrom > yearTo, applyFilters ends in the range alert and in no
    result; the call changes nothing else, so the stored filtered result
    and the page are those of before. *)
Theorem C1_inverted_range_rejected (v : Variant) (items : list DataPoint.t)
    (f : Filters.t) (st : State) :
  range_mode v = true ->
  items <> [] ->
  range_inverted f = true ->
  run v (Array items) f = RangeInvalid
  /\ applyFilters v (Some (Array items)) (Some f) st = alert range_message st
  /\ filteredData (applyFilters v (Some (Array items)) (Some f) st)
     = filteredData st
  /\ summary (applyFilters v (Some (Array items)) (Some f) st) = summary st
  /\ preview (applyFilters v (Some (Array items)) (Some f) st) = preview st.
Proof.
  intros Hmode Hne Hinv.
  assert (Hrun : run v (Array items) f = RangeInvalid).
  { rewrite run_nonempty by assumption. now rewrite Hmode, Hinv. }
  rewrite applyFilters_spec. simpl data_or_default. simpl default.
  rewrite Hrun. repeat split.
Qed.

Lemma C1_witness :
  run part_000 (Array [albania_2019; serbia_2019]) inverted_range = RangeInvalid
  /\ filteredData (applyFilters part_000 (Some (Array [albania_2019; serbia_2019]))
                     (Some inverted_range) initial_state)
     = filteredData initial_state.
Proof.
  destruct (C1_inverted_range_rejected part_000 [albania_2019; serbia_2019]
              inverted_range initial_state) as (H1 & _ & H3 & _).
  - reflexivity.
  - discriminate.
  - reflexivity.
  - split; [exact H1 | exact H3].
Defined.

(** ** C2: the layer field *)

Lemma keeps_layer_free v l f r :
  layer_applied v = false ->
  keeps v (with_layer l f) r = keeps v f r.
Proof. intros H. unfold keeps. rewrite H. destruct v; reflexivity. Qed.

Lemma keeps_no_constraint v l f r :
  l = None \/ l = Some "" \/ l = Some "All" ->
  keeps v (with_layer l f) r = keeps v (with_layer None f) r.
Proof.
  intros [-> | [-> | ->]]; unfold keeps, layer_ok; simpl;
    destruct v; reflexivity.
Qed.

Lemma run_keeps_ext v data f g :
  range_inverted f = range_inverted g ->
  (forall r, keeps v f r = keeps v g r) ->
  run v data f = run v data g.
Proof.
  intros Hinv Hkeeps. rewrite !run_spec.
  destruct data as [x| |[|r items]]; try reflexivity.
  rewrite !filter_rows_spec, Hinv.
  destruct (_ && _); [reflexivity|]. f_equal.
  apply List.filter_ext, Hkeeps.
Qed.

(** C2, as stated, fails in [src/script.js], whose layer block is an
    empty placeholder: with [{layer: "Basic"}] a record of the layer
    "Intermediate" survives. *)
Lemma C2_counterexample_placeholder :
  run script_js (Array [albania_2019; serbia_2019]) basic_layer
  = Filtered [albania_2019; serbia_2019]
  /\ DataPoint.layer albania_2019 = JStr "Intermediate"
  /\ DataPoint.layer albania_2019 <> JStr "Basic".
Proof. repeat split. discriminate. Qed.

(** C2, amended: in every variant a spec with layer "All" gives the
    result of the same spec with the layer empty or undefined. Where the
    layer is applied ([src/unnamed/part_000]) and spec.layer is another
    non-empty string, the result is that of the unconstrained spec
    narrowed to the records whose layer is that very string, so a record
    survives only if its layer equals spec.layer. In the other two
    variants the layer field constrains nothing. *)
Theorem C2_layer_field (v : Variant) (data : Data) (f : Filters.t) :
  run v data (with_layer (Some "All") f) = run v data (with_layer None f)
  /\ run v data (with_layer (Some "") f) = run v data (with_layer None f)
  /\ (forall s out,
        layer_applied v = true -> s <> "" -> s <> "All" ->
        run v data (with_layer (Some s) f) = Filtered out ->
        (exists unconstrained,
            run v data (with_layer None f) = Filtered unconstrained
            /\ out = List.filter
                       (fun r => equals_string (DataPoint.layer r) s)
                       unconstrained)
        /\ forall r, In r out -> DataPoint.layer r = JStr s)
  /\ (forall l,
        layer_applied v = false ->
        run v data (with_layer l f) = run v data (with_layer None f)).
Proof.
  split; [|split; [|split]].
  - apply run_keeps_ext; [reflexivity|]. intros r.
    apply keeps_no_constraint. auto.
  - apply run_keeps_ext; [reflexivity|]. intros r.
    apply keeps_no_constraint. auto.
  - intros s out Hv Hs HAll Hrun.
    apply run_Filtered in Hrun as (items & -> & Hne & Hguard & ->).
    assert (Hkeeps : forall r, keeps v (with_layer (Some s) f) r
                = keeps v (with_layer None f) r
                  && equals_string (DataPoint.layer r) s).
    { intros r. destruct v; try discriminate Hv.
      unfold keeps, layer_ok, year_ok, from_ok, to_ok. simpl.
      apply String.eqb_neq in Hs, HAll. rewrite Hs, HAll. simpl.
      btauto. }
    split.
    + exists (List.filter (keeps v (with_layer None f)) items). split.
      * rewrite run_nonempty by assumption.
        change (range_inverted (with_layer None f))
          with (range_inverted (with_layer (Some s) f)).
        now rewrite Hguard.
      * rewrite filter_filter. apply List.filter_ext, Hkeeps.
    + intros r Hr. apply filter_In in Hr as [_ Hr].
      rewrite Hkeeps in Hr. apply andb_true_iff in Hr as [_ Hr].
      now apply equals_string_eq.
  - intros l Hv. apply run_keeps_ext; [reflexivity|]. intros r.
    now rewrite !keeps_layer_free.
Qed.

Lemma C2_witness :
  run part_000 (Array [albania_2019; serbia_2019])
    (with_layer (Some "Basic") Filters.empty)
  = Filtered [serbia_2019]
  /\ DataPoint.layer serbia_2019 = JStr "Basic".
Proof.
  split; [reflexivity|].
  destruct (C2_layer_field part_000 (Array [albania_2019; serbia_2019])
              Filters.empty) as (_ & _ & H & _).
  apply (H "Basic" [serbia_2019]);
    [reflexivity | discriminate | discriminate | reflexivity | now left].
Defined.

(** ** C3: the result is the conjunction of the active predicates *)

(** C3: when evaluation succeeds, every record of the output satisfies
    every active predicate of the spec (country and indicator by exact
    string equality, the inclusive year bounds or the exact year, and
    the layer where it is applied), and every input record that is not
    in the output fails one of them or has a value that is null,
    undefined or not a number. *)
Theorem C3_conjunction (v : Variant) (items out : list DataPoint.t)
    (f : Filters.t) :
  run v (Array items) f = Filtered out ->
  (forall r, In r out ->
     matches (Filters.country f) (DataPoint.country r) = true
     /\ matches (Filters.indicator f) (DataPoint.indicator r) = true
     /\ (if range_mode v then from_ok f r = true /\ to_ok f r = true
         else exact_ok f r = true)
     /\ (layer_applied v = true -> layer_ok f r = true))
  /\ (forall r, In r items -> ~ In r out ->
        matches (Filters.country f) (DataPoint.country r) = false
        \/ matches (Filters.indicator f) (DataPoint.indicator r) = false
        \/ (if range_mode v then from_ok f r = false \/ to_ok f r = false
            else exact_ok f r = false)
        \/ (layer_applied v = true /\ layer_ok f r = false)
        \/ value_missing r = true).
Proof.
  intros Hrun.
  apply run_Filtered in Hrun as (items' & [= <-] & Hne & Hguard & ->).
  split.
  - intros r Hr. apply filter_In in Hr as [_ Hr]. unfold keeps, year_ok in Hr.
    destruct v; simpl in *; repeat rewrite andb_true_iff in Hr;
      intuition discriminate.
  - intros r Hin Hout.
    assert (Hr : keeps v f r = false).
    { destruct (keeps v f r) eqn:E; [|reflexivity].
      exfalso. apply Hout, filter_In. auto. }
    unfold keeps, year_ok in Hr.
    destruct (matches (Filters.country f) _); [|auto].
    destruct (matches (Filters.indicator f) _); [|auto].
    destruct (value_missing r); [auto 6|].
    destruct v; simpl in *.
    + destruct (from_ok f r); [|auto]. destruct (to_ok f r); [|auto 6].
      discriminate.
    + destruct (from_ok f r); [|auto]. destruct (to_ok f r); [|auto 6].
      destruct (layer_ok f r); [discriminate | auto 6].
    + destruct (exact_ok f r); [discriminate | auto].
Qed.

Lemma C3_witness :
  run part_001 (Array [albania_2019; serbia_2019])
    (Filters.make (Some "Albania") None None None None None)
  = Filtered [albania_2019]
  /\ matches (Some "Albania") (DataPoint.country albania_2019) = true
  /\ matches (Some "Albania") (DataPoint.country serbia_2019) = false.
Proof.
  split; [reflexivity|].
  destruct (C3_conjunction part_001 [albania_2019; serbia_2019] [albania_2019]
              (Filters.make (Some "Albania") None None None None None)
              eq_refl) as [Hkept Hdropped].
  split.
  - exact (proj1 (Hkept albania_2019 (or_introl eq_refl))).
  - destruct (Hdropped serbia_2019) as [H|[H|[H|[[H _]|H]]]];
      try discriminate H.
    + right; left; reflexivity.
    + intros [E|[]]. discriminate E.
    + exact H.
Defined.

(** ** C4: records without a value *)

Lemma value_missing_iff r :
  value_missing r = true <->
  DataPoint.value r = JNull \/ DataPoint.value r = JUndefined
  \/ isNaN (DataPoint.value r) = true.
Proof.
  unfold value_missing. destruct (DataPoint.value r) as [| |b|n|s]; simpl.
  all: intuition (try discriminate; auto).
Qed.

Lemma keeps_empty v r : keeps v Filters.empty r = negb (value_missing r).
Proof. destruct v; unfold keeps, layer_ok; simpl; btauto. Qed.

(** C4: in every variant and for every spec, a successful evaluation
    keeps no record whose value is null, undefined or NaN (or anything
    else that is not a number), and every input record with such a value
    is left out; with the empty spec the result is exactly the records
    that have a value. *)
Theorem C4_missing_values_dropped (v : Variant) (items out : list DataPoint.t)
    (f : Filters.t) :
  run v (Array items) f = Filtered out ->
  (forall r, In r out ->
     DataPoint.value r <> JNull /\ DataPoint.value r <> JUndefined
     /\ DataPoint.value r <> JNum NaN /\ isNaN (DataPoint.value r) = false)
  /\ (forall r, In r items -> value_missing r = true -> ~ In r out)
  /\ run v (Array items) Filters.empty
     = Filtered (List.filter (fun r => negb (value_missing r)) items).
Proof.
  intros Hrun.
  apply run_Filtered in Hrun as (items' & [= <-] & Hne & Hguard & ->).
  assert (Hkept : forall r, In r (List.filter (keeps v f) items) ->
                            value_missing r = false).
  { intros r Hr. apply filter_In in Hr as [_ Hr]. unfold keeps in Hr.
    repeat rewrite andb_true_iff in Hr.
    destruct (value_missing r); [|reflexivity].
    destruct Hr as [[_ Hr] _]. discriminate Hr. }
  split; [|split].
  - intros r Hr. specialize (Hkept r Hr).
    assert (Hno : ~ (DataPoint.value r = JNull \/ DataPoint.value r = JUndefined
                     \/ isNaN (DataPoint.value r) = true)).
    { rewrite <- value_missing_iff. congruence. }
    repeat split.
    + intros E. apply Hno. auto.
    + intros E. apply Hno. auto.
    + intros E. apply Hno. rewrite E. auto.
    + destruct (isNaN (DataPoint.value r)); [|reflexivity].
      exfalso. apply Hno. auto.
  - intros r _ Hmiss Hr. apply Hkept in Hr. congruence.
  - rewrite run_nonempty by assumption.
    replace (range_mode v && range_inverted Filters.empty) with false
      by (destruct v; reflexivity).
    f_equal. apply List.filter_ext, keeps_empty.
Qed.

Lemma C4_witness :
  ~ In (point "Serbia" (JInt 2019) (JNum NaN) JUndefined) [albania_2019].
Proof.
  destruct (C4_missing_values_dropped script_js
              [albania_2019; point "Serbia" (JInt 2019) (JNum NaN) JUndefined]
              [albania_2019] Filters.empty eq_refl) as (_ & H & _).
  apply H; [right; left; reflexivity | reflexivity].
Defined.

(** ** C5: nothing to evaluate *)

Lemma run_degenerate v data f : degenerate data -> run v data f = NoData.
Proof.
  intros H. rewrite run_spec. destruct data as [x| |[|r items]]; try reflexivity.
  discriminate H.
Qed.

(** C5: in every variant and for every spec, when the record sequence
    the call works on (the argument, or the stored data set when the
    argument is left out) is empty, null, undefined or not an array,
    applyFilters ends in the no-data message: it raises no range alert,
    stores no result and writes no table. *)
Theorem C5_no_data (v : Variant) (data : option Data)
    (filters : option Filters.t) (st : State) :
  degenerate (data_or_default data st) ->
  run v (data_or_default data st) (default (getFilters v st) filters) = NoData
  /\ applyFilters v data filters st = show_no_data st
  /\ summary (applyFilters v data filters st) = SummaryText "No data available"
  /\ preview (applyFilters v data filters st) = NoDataDiv "No data available"
  /\ alerts (applyFilters v data filters st) = alerts st
  /\ filteredData (applyFilters v data filters st) = filteredData st.
Proof.
  intros H. rewrite applyFilters_spec, run_degenerate by assumption.
  repeat split.
Qed.

Lemma C5_witness :
  applyFilters part_001 (Some (Array [])) (Some Filters.empty) initial_state
  = show_no_data initial_state
  /\ applyFilters script_js (Some (Primitive JNull)) (Some inverted_range)
       initial_state
     = show_no_data initial_state.
Proof.
  split.
  - apply (C5_no_data part_001 (Some (Array [])) (Some Filters.empty)
             initial_state). reflexivity.
  - apply (C5_no_data script_js (Some (Primitive JNull)) (Some inverted_range)
             initial_state). exact I.
Defined.

(** ** C6: the result is a subsequence of the input *)

(** C6: when evaluation succeeds the output is a subsequence of the
    input: its records come from the input, in the input's order, and
    it is no longer than the input. *)
Theorem C6_subsequence (v : Variant) (items out : list DataPoint.t)
    (f : Filters.t) :
  run v (Array items) f = Filtered out ->
  sublist out items
  /\ (forall r, In r out -> In r items)
  /\ (length out <= length items)%nat.
Proof.
  intros Hrun.
  apply run_Filtered in Hrun as (items' & [= <-] & _ & _ & ->).
  pose proof (filter_sublist (keeps v f) items) as Hsub.
  split; [exact Hsub|]. split.
  - intros r Hr. apply filter_In in Hr. tauto.
  - now apply sublist_length.
Qed.

Lemma C6_witness : sublist [albania_2019] [albania_2019; serbia_2019].
Proof.
  apply (C6_subsequence part_000 [albania_2019; serbia_2019] [albania_2019]
           (Filters.make (Some "Albania") None (Some "2015") (Some "2022")
              None (Some "All")) eq_refl).
Defined.

(** ** C7: determinism and the data left as they were *)

Lemma allIndicatorsData_renderResults v st :
  allIndicatorsData (renderResults v st) = allIndicatorsData st
  /\ controls (renderResults v st) = controls st
  /\ alerts (renderResults v st) = alerts st.
Proof.
  destruct v; simpl.
  - unfold ScriptJs.renderResults, ScriptJs.renderPreview.
    now destruct (take 10 _).
  - unfold Part000.renderResults, Part000.renderPreview.
    now destruct (filteredData st) eqn:E.
  - unfold Part001.renderResults, Part001.renderPreview.
    now destruct (filteredData st) eqn:E.
Qed.

(** What [renderResults] writes depends on the stored result only. *)
Lemma renderResults_display v rows st st' :
  summary (renderResults v (set_filteredData rows st))
  = summary (renderResults v (set_filteredData rows st'))
  /\ preview (renderResults v (set_filteredData rows st))
     = preview (renderResults v (set_filteredData rows st')).
Proof.
  destruct v; simpl.
  - unfold ScriptJs.renderResults, ScriptJs.renderPreview. simpl.
    now destruct (take 10 rows).
  - unfold Part000.renderResults, Part000.renderPreview. simpl.
    now destruct rows.
  - unfold Part001.renderResults, Part001.renderPreview. simpl.
    now destruct rows.
Qed.

(** C7: the output of an evaluation is a function of the record
    sequence and the spec alone: from any two states of the page the two
    calls store the same result, and a second identical call stores and
    displays what the first did. No call changes the stored data set
    (the input sequence and its records) nor the filter controls. *)
Theorem C7_deterministic_and_non_mutating (v : Variant)
    (items : list DataPoint.t) (f : Filters.t) (st st' : State) :
  let call := applyFilters v (Some (Array items)) (Some f) in
  (forall out, run v (Array items) f = Filtered out ->
     filteredData (call st) = out /\ filteredData (call st') = out)
  /\ filteredData (call (call st)) = filteredData (call st)
  /\ summary (call (call st)) = summary (call st)
  /\ preview (call (call st)) = preview (call st)
  /\ (forall data filters,
        allIndicatorsData (applyFilters v data filters st) = allIndicatorsData st
        /\ controls (applyFilters v data filters st) = controls st).
Proof.
  cbv zeta. rewrite !applyFilters_spec. simpl data_or_default. simpl default.
  split; [|split; [|split; [|split]]].
  - intros out ->. rewrite !filteredData_renderResults. split; reflexivity.
  - destruct (run v (Array items) f); try reflexivity.
    now rewrite !filteredData_renderResults.
  - destruct (run v (Array items) f); try reflexivity.
    apply renderResults_display.
  - destruct (run v (Array items) f); try reflexivity.
    apply renderResults_display.
  - intros data filters. rewrite applyFilters_spec.
    destruct (run v _ _); try (split; reflexivity).
    destruct (allIndicatorsData_renderResults v (set_filteredData filtered st))
      as (H1 & H2 & _).
    rewrite H1, H2. split; reflexivity.
Qed.

Lemma C7_witness :
  filteredData (applyFilters script_js (Some (Array [albania_2019; serbia_2019]))
                  (Some (Filters.make (Some "Serbia") None None None None None))
                  initial_state)
  = [serbia_2019].
Proof.
  destruct (C7_deterministic_and_non_mutating script_js
              [albania_2019; serbia_2019]
              (Filters.make (Some "Serbia") None None None None None)
              initial_state (show_no_data initial_state)) as [H _].
  exact (proj1 (H [serbia_2019] eq_refl)).
Defined.

(** ** C8: the preview table *)




(** ** C10: records whose year is not a number *)

Lemma js_ge_NaN y n : ToNumber y = NaN -> js_ge y (JNum n) = false.
Proof.
  intros H. unfold js_ge, js_compare.
  destruct y; simpl in *; rewrite ?H; try reflexivity; discriminate.
Qed.

Lemma js_le_NaN y n : ToNumber y = NaN -> js_le y (JNum n) = false.
Proof.
  intros H. unfold js_le, js_compare.
  destruct y; simpl in *; rewrite ?H; try reflexivity; discriminate.
Qed.

Lemma strict_eq_NaN y n : ToNumber y = NaN -> strict_eq y (JNum n) = false.
Proof.
  intros H. destruct y; simpl in *; try reflexivity. now rewrite H.
Qed.

Lemma year_ok_inactive v f r :
  year_active v f = false -> year_ok v f r = true.
Proof.
  unfold year_active, year_ok, from_ok, to_ok, exact_ok.
  destruct (range_mode v).
  - intros H. apply orb_false_iff in H as [-> ->]. reflexivity.
  - intros ->. reflexivity.
Qed.

Lemma year_ok_NaN v f r :
  ToNumber (DataPoint.year r) = NaN ->
  year_active v f = true -> year_ok v f r = false.
Proof.
  intros Hy. unfold year_active, year_ok, from_ok, to_ok, exact_ok, bound.
  destruct (range_mode v).
  - rewrite js_ge_NaN, js_le_NaN by assumption.
    destruct (is_set (Filters.yearFrom f)), (is_set (Filters.yearTo f));
      simpl; congruence.
  - intros ->. now apply strict_eq_NaN.
Qed.

Lemma keeps_year_ok v f r : keeps v f r = true -> year_ok v f r = true.
Proof.
  unfold keeps. repeat rewrite andb_true_iff. tauto.
Qed.

(** C10, as stated, fails for a null year in the range variants: null
    is compared as 0, so under [{yearFrom: "", yearTo: "2022"}], where
    the upper bound is active, the record is kept. *)
Lemma C10_counterexample_null_year :
  DataPoint.year serbia_null_year = JNull
  /\ year_active script_js up_to_2022 = true
  /\ run script_js (Array [serbia_null_year]) up_to_2022
     = Filtered [serbia_null_year]
  /\ js_le JNull (JInt 2022) = true.
Proof. repeat split. Qed.

(** C10, amended: in a successful evaluation, an input record is kept on
    the other predicates alone when the spec has no year constraint,
    whatever its year; it is excluded whenever a year constraint is
    active if its year is missing or converts to NaN, and in the
    exact-year variant if its year is null; in the range variants a null
    year is treated as the year 0. *)
Theorem C10_year_not_a_number (v : Variant) (items out : list DataPoint.t)
    (f : Filters.t) (r : DataPoint.t) :
  run v (Array items) f = Filtered out ->
  In r items ->
  (year_active v f = false ->
     (In r out <->
        matches (Filters.country f) (DataPoint.country r) = true
        /\ matches (Filters.indicator f) (DataPoint.indicator r) = true
        /\ value_missing r = false
        /\ (layer_applied v = true -> layer_ok f r = true)))
  /\ (year_active v f = true ->
      ToNumber (DataPoint.year r) = NaN -> ~ In r out)
  /\ (year_active v f = true ->
      range_mode v = false -> DataPoint.year r = JNull -> ~ In r out)
  /\ (range_mode v = true -> DataPoint.year r = JNull ->
      (In r out <-> keeps v f (with_year (JInt 0) r) = true)).
Proof.
  intros Hrun Hin.
  apply run_Filtered in Hrun as (items' & [= <-] & Hne & Hguard & ->).
  assert (Hout : forall x, In x items ->
            (In x (List.filter (keeps v f) items) <-> keeps v f x = true)).
  { intros x Hx. rewrite filter_In. tauto. }
  rewrite (Hout r Hin). split; [|split; [|split]].
  - intros Hno. unfold keeps. rewrite (year_ok_inactive v f r Hno).
    repeat rewrite andb_true_iff. rewrite negb_true_iff.
    destruct (layer_applied v); intuition congruence.
  - intros Hact Hy Hk. apply keeps_year_ok in Hk.
    rewrite (year_ok_NaN v f r Hy Hact) in Hk. discriminate.
  - intros Hact Hmode Hy Hk. apply keeps_year_ok in Hk.
    unfold year_ok, year_active, exact_ok in *. rewrite Hmode in *.
    rewrite Hact, Hy in Hk. discriminate.
  - intros Hmode Hy.
    replace (keeps v f (with_year (JInt 0) r)) with (keeps v f r);
      [reflexivity|].
    unfold keeps, year_ok, from_ok, to_ok, layer_ok, value_missing.
    rewrite Hmode. simpl. rewrite Hy. reflexivity.
Qed.

Lemma C10_witness :
  ~ In (point "Serbia" JUndefined (JInt 7) JNull)
       [albania_2019].
Proof.
  destruct (C10_year_not_a_number part_000
              [albania_2019; point "Serbia" JUndefined (JInt 7) JNull]
              [albania_2019]
              (Filters.make None None (Some "2015") (Some "2022") None None)
              (point "Serbia" JUndefined (JInt 7) JNull) eq_refl)
    as (_ & H & _).
  - right; left; reflexivity.
  - apply H; reflexivity.
Defined.

(** ** C9: the year options *)

(** *** The strings of four-digit years are ordered as the years *)

Lemma digit_char_compare x y :
  0 <= x <= 9 -> 0 <= y <= 9 ->
  Ascii.compare (digit_char x) (digit_char y) = Z.compare x y.
Proof.
  intros Hx Hy.
  assert (Ex : x = 0 \/ x = 1 \/ x = 2 \/ x = 3 \/ x = 4 \/ x = 5 \/ x = 6
               \/ x = 7 \/ x = 8 \/ x = 9) by lia.
  assert (Ey : y = 0 \/ y = 1 \/ y = 2 \/ y = 3 \/ y = 4 \/ y = 5 \/ y = 6
               \/ y = 7 \/ y = 8 \/ y = 9) by lia.
  repeat (destruct Ex as [-> | Ex]); try subst x;
    repeat (destruct Ey as [-> | Ey]); try subst y; reflexivity.
Qed.

Ltac divlia := Z.to_euclidean_division_equations; lia.

Lemma decimal_digits_step fuel n acc :
  decimal_digits (S fuel) n acc
  = if n <? 10 then digit_char (n mod 10) :: acc
    else decimal_digits fuel (n / 10) (digit_char (n mod 10) :: acc).
Proof. reflexivity. Qed.

Lemma integer_to_string_four z :
  four_digits z ->
  integer_to_string z
  = String (digit_char (z / 1000))
      (String (digit_char (z / 100 mod 10))
         (String (digit_char (z / 10 mod 10))
            (String (digit_char (z mod 10)) ""))).
Proof.
  intros [Hlo Hhi]. unfold integer_to_string.
  replace (z <? 0) with false by (symmetry; apply Z.ltb_ge; divlia).
  rewrite Z.abs_eq by divlia.
  rewrite decimal_digits_step.
  replace (z <? 10) with false by (symmetry; apply Z.ltb_ge; divlia).
  rewrite decimal_digits_step.
  replace (z / 10 <? 10) with false by (symmetry; apply Z.ltb_ge; divlia).
  rewrite decimal_digits_step.
  replace (z / 10 / 10 <? 10) with false by (symmetry; apply Z.ltb_ge; divlia).
  rewrite decimal_digits_step.
  replace (z / 10 / 10 / 10 <? 10) with true by (symmetry; apply Z.ltb_lt; divlia).
  replace (z / 10 / 10 / 10 mod 10) with (z / 1000) by divlia.
  replace (z / 10 / 10 mod 10) with (z / 100 mod 10) by divlia.
  reflexivity.
Qed.

Lemma compare_four_digits a b :
  four_digits a -> four_digits b ->
  string_compare (integer_to_string a) (integer_to_string b) = Z.compare a b.
Proof.
  intros Ha Hb. unfold string_compare.
  rewrite !integer_to_string_four by assumption.
  unfold four_digits in *. simpl String.compare.
  rewrite !digit_char_compare by divlia.
  destruct (Z.compare_spec (a / 1000) (b / 1000)) as [E3|L3|L3];
    [|symmetry; (apply Z.compare_lt_iff || apply Z.compare_gt_iff); divlia ..].
  destruct (Z.compare_spec (a / 100 mod 10) (b / 100 mod 10)) as [E2|L2|L2];
    [|symmetry; (apply Z.compare_lt_iff || apply Z.compare_gt_iff); divlia ..].
  destruct (Z.compare_spec (a / 10 mod 10) (b / 10 mod 10)) as [E1|L1|L1];
    [|symmetry; (apply Z.compare_lt_iff || apply Z.compare_gt_iff); divlia ..].
  destruct (Z.compare_spec (a mod 10) (b mod 10)) as [E0|L0|L0];
    symmetry;
    (apply Z.compare_eq_iff || apply Z.compare_lt_iff || apply Z.compare_gt_iff);
    divlia.
Qed.

(** *** The default sort on four-digit years is the numeric sort *)

Lemma ToString_JInt z :
  four_digits z -> ToString (JInt z) = Some (integer_to_string z).
Proof.
  intros [Hlo Hhi]. unfold JInt, ToString, NumberToString, inject_Z.
  cbn [Qnum Qden]. rewrite Z.mod_1_r, Z.div_1_r. simpl (0 =? 0).
  replace (Z.abs z <? 10 ^ 21) with true; [reflexivity|].
  symmetry. apply Z.ltb_lt. change (10 ^ 21) with 1000000000000000000000. lia.
Qed.

Lemma with_strings_JInt zs :
  Forall four_digits zs -> with_strings (map JInt zs) = Some (map keyed zs).
Proof.
  induction 1 as [|z zs Hz _ IH]; [reflexivity|].
  cbn [map with_strings]. now rewrite ToString_JInt, IH.
Qed.

Lemma insert_Z_In x z l : In x (insert_Z z l) <-> x = z \/ In x l.
Proof.
  induction l as [|y l IH]; simpl; [intuition|].
  destruct (y ?= z); simpl; rewrite ?IH; intuition.
Qed.

Lemma sort_Z_In x l : In x (sort_Z l) <-> In x l.
Proof.
  induction l as [|z l IH]; simpl; [tauto|].
  rewrite insert_Z_In, IH. intuition.
Qed.

Lemma insert_sorted_keyed z l :
  four_digits z -> Forall four_digits l ->
  insert_sorted (keyed z) (map keyed l) = map keyed (insert_Z z l).
Proof.
  intros Hz. induction 1 as [|y l Hy _ IH]; [reflexivity|].
  cbn [map insert_sorted insert_Z]. cbn [keyed fst].
  rewrite compare_four_digits by assumption.
  destruct (y ?= z); try reflexivity.
  cbn [map]. f_equal. exact IH.
Qed.

Lemma sort_by_string_keyed zs :
  Forall four_digits zs ->
  sort_by_string (map keyed zs) = map keyed (sort_Z zs).
Proof.
  induction 1 as [|z zs Hz Hzs IH]; [reflexivity|].
  unfold sort_by_string, sort_Z in *. cbn [map fold_right]. rewrite IH.
  apply insert_sorted_keyed; [assumption|].
  apply List.Forall_forall. intros x Hx.
  rewrite List.Forall_forall in Hzs. apply Hzs.
  apply (proj1 (sort_Z_In x zs)). exact Hx.
Qed.

Lemma filter_defined_JInt zs :
  List.filter (fun v => negb (is_undefined v)) (map JInt zs) = map JInt zs
  /\ List.filter is_undefined (map JInt zs) = [].
Proof.
  induction zs as [|z zs [IH1 IH2]]; [split; reflexivity|].
  cbn [map List.filter JInt is_undefined negb]. fold (JInt z).
  now rewrite IH1, IH2.
Qed.

Lemma sort_JInt zs :
  Forall four_digits zs -> sort (map JInt zs) = Some (map JInt (sort_Z zs)).
Proof.
  intros H. unfold sort.
  destruct (filter_defined_JInt zs) as [-> ->].
  rewrite with_strings_JInt, sort_by_string_keyed by assumption.
  rewrite app_nil_r, map_map. reflexivity.
Qed.

(** *** The numeric sort *)

Lemma insert_Z_sorted z l :
  StronglySorted Z.lt l -> ~ In z l -> StronglySorted Z.lt (insert_Z z l).
Proof.
  induction 1 as [|y l Hl IH Hy]; intros Hz; simpl.
  - repeat constructor.
  - rewrite List.Forall_forall in Hy.
    destruct (Z.compare_spec y z) as [E|L|G].
    + exfalso. apply Hz. left. exact E.
    + constructor.
      * apply IH. intros Hin. apply Hz. right. exact Hin.
      * apply List.Forall_forall. intros x Hx. apply insert_Z_In in Hx as [->|Hx];
          [exact L | auto].
    + constructor; [constructor; [assumption | apply List.Forall_forall; exact Hy]|].
      apply List.Forall_forall. intros x [<-|Hx]; [exact G|].
      specialize (Hy x Hx). lia.
Qed.

Lemma sort_Z_sorted l : List.NoDup l -> StronglySorted Z.lt (sort_Z l).
Proof.
  induction 1 as [|z l Hz _ IH]; [constructor|].
  change (sort_Z (z :: l)) with (insert_Z z (sort_Z l)).
  apply insert_Z_sorted; [exact IH|]. now rewrite sort_Z_In.
Qed.

Lemma sorted_bounds (l : list Z) lo hi :
  StronglySorted Z.lt l -> head l = Some lo -> last l = Some hi ->
  forall z, In z l -> lo <= z <= hi.
Proof.
  intros Hs. revert lo hi. induction Hs as [|y l Hl IH Hy]; [discriminate|].
  intros lo hi [= <-] Hlast z Hz. rewrite List.Forall_forall in Hy.
  destruct l as [|y' l'].
  - injection Hlast as <-. destruct Hz as [<-|[]]. lia.
  - rewrite last_cons_cons in Hlast.
    pose proof (Hy y' (or_introl eq_refl)) as Hyy'.
    assert (Hhi : y' <= hi) by (apply (IH y' hi eq_refl Hlast); now left).
    destruct Hz as [<-|Hz]; [lia|].
    specialize (IH y' hi eq_refl Hlast z Hz). lia.
Qed.

(** *** The members of a Set *)

Lemma same_value_zero_refl v : same_value_zero v v = true.
Proof.
  destruct v as [| |b|[|b|q]|s]; simpl; try reflexivity.
  - apply Bool.eqb_reflx.
  - unfold num_eqb, num_compare. now rewrite Bool.eqb_reflx.
  - unfold num_eqb, num_compare. now rewrite (proj1 (Qeq_alt q q) (Qeq_refl q)).
  - apply String.eqb_refl.
Qed.

Lemma same_value_zero_JInt a b : same_value_zero (JInt a) (JInt b) = (a =? b).
Proof.
  unfold JInt, same_value_zero, strict_eq, num_eqb, num_compare, Qcompare.
  simpl. rewrite !Z.mul_1_r.
  destruct (Z.compare_spec a b) as [->|L|G]; symmetry;
    [apply Z.eqb_refl | apply Z.eqb_neq; lia ..].
Qed.

(** A value that is the SameValueZero of a non-zero integer is a
    non-zero number. *)
Lemma same_value_zero_truthy z m :
  z <> 0 -> same_value_zero (JInt z) m = true -> truthy m = true.
Proof.
  intros Hz. destruct m as [| |b|[|b|q]|s]; simpl; try discriminate;
    try (intros _; reflexivity).
  unfold num_eqb, num_compare, Qcompare. simpl.
  destruct (Z.compare_spec (z * Zpos (Qden q)) (Qnum q * 1)) as [E|L|G];
    try discriminate.
  intros _. apply negb_true_iff, Z.eqb_neq. nia.
Qed.

Lemma set_add_all_In x vs ms :
  In x (set_add_all vs ms) -> In x ms \/ In x vs.
Proof.
  revert ms. induction vs as [|v vs IH]; intros ms; simpl; [auto|].
  destruct (existsb _ ms); intros H; apply IH in H.
  - tauto.
  - rewrite in_app_iff in H. simpl in H. tauto.
Qed.

Lemma set_add_all_members x vs ms :
  In x ms -> In x (set_add_all vs ms).
Proof.
  revert ms. induction vs as [|v vs IH]; intros ms H; simpl; [exact H|].
  destruct (existsb _ ms); apply IH; [exact H|].
  apply in_app_iff. now left.
Qed.

Lemma set_add_all_represented x vs ms :
  In x vs ->
  exists m, In m (set_add_all vs ms) /\ same_value_zero x m = true.
Proof.
  revert ms. induction vs as [|v vs IH]; intros ms; simpl; [tauto|].
  intros [->|H].
  - destruct (existsb (same_value_zero x) ms) eqn:E.
    + apply existsb_exists in E as (m & Hm & Em).
      exists m. split; [now apply set_add_all_members | exact Em].
    + exists x. split; [|apply same_value_zero_refl].
      apply set_add_all_members, in_app_iff. right. now left.
  - destruct (existsb _ ms); now apply IH.
Qed.

Lemma existsb_false {A} (p : A -> bool) l :
  existsb p l = false -> forall x, In x l -> p x = false.
Proof.
  intros H x Hx. destruct (p x) eqn:E; [|reflexivity].
  rewrite <- H. symmetry. apply existsb_exists. eauto.
Qed.

Lemma set_add_all_distinct vs ms :
  distinct_members (rev ms) -> distinct_members (rev (set_add_all vs ms)).
Proof.
  revert ms. induction vs as [|v vs IH]; intros ms H; simpl; [exact H|].
  destruct (existsb (same_value_zero v) ms) eqn:E; apply IH; [exact H|].
  rewrite rev_app_distr. simpl. split; [|exact H].
  intros m Hm. apply in_rev in Hm. now apply (existsb_false _ _ E).
Qed.

Lemma distinct_members_filter p l :
  distinct_members l -> distinct_members (List.filter p l).
Proof.
  induction l as [|v l IH]; simpl; [auto|]. intros [Hv Hl].
  destruct (p v); simpl; [split|]; auto.
  intros m Hm. apply filter_In in Hm. apply Hv. tauto.
Qed.

Lemma distinct_members_JInt zs :
  distinct_members (map JInt zs) -> List.NoDup zs.
Proof.
  induction zs as [|z zs IH]; cbn [map distinct_members]; [constructor|].
  intros [Hz Hzs]. constructor; [|auto]. intros Hin.
  pose proof (Hz (JInt z) (in_map JInt zs z Hin)) as E.
  rewrite same_value_zero_refl in E. discriminate.
Qed.

Lemma JInt_inj a b : JInt a = JInt b -> a = b.
Proof. intros [= H]. exact H. Qed.

Lemma truthy_JInt z : truthy (JInt z) = negb (z =? 0).
Proof. reflexivity. Qed.

Lemma four_digit_year_number y :
  four_digit_year y -> JInt (year_number y) = y /\ four_digits (year_number y).
Proof. intros (z & -> & Hz). split; [reflexivity | exact Hz]. Qed.

(** The truthy members of the Set of years, when the truthy years are
    four-digit integers: these integers, without repetition. *)
Lemma truthy_years items :
  (forall r, In r items -> truthy (DataPoint.year r) = true ->
             four_digit_year (DataPoint.year r)) ->
  exists zs,
    List.filter truthy (distinct (map DataPoint.year items)) = map JInt zs
    /\ Forall four_digits zs
    /\ List.NoDup zs
    /\ forall z, In z zs <->
                 In (JInt z) (map DataPoint.year items)
                 /\ truthy (JInt z) = true.
Proof.
  intros Hyears.
  set (l := map DataPoint.year items).
  set (Y := List.filter truthy (distinct l)).
  assert (Hl : forall y, In y l -> truthy y = true -> four_digit_year y).
  { intros y Hy Ht. apply in_map_iff in Hy as (r & <- & Hr). auto. }
  assert (HY : forall y, In y Y -> four_digit_year y).
  { intros y Hy. apply filter_In in Hy as [Hy Ht].
    apply set_add_all_In in Hy as [[]|Hy]. auto. }
  assert (Hmap : Y = map JInt (map year_number Y)).
  { rewrite map_map. rewrite <- (map_id Y) at 1.
    apply map_ext_in. intros y Hy. symmetry.
    apply four_digit_year_number. auto. }
  exists (map year_number Y). split; [exact Hmap|]. split; [|split].
  - apply List.Forall_forall. intros z Hz.
    apply in_map_iff in Hz as (y & <- & Hy).
    apply four_digit_year_number. auto.
  - rewrite <- (rev_involutive (map year_number Y)).
    apply List.NoDup_rev, distinct_members_JInt.
    rewrite List.map_rev, <- Hmap. unfold Y. rewrite <- List.filter_rev.
    apply distinct_members_filter.
    apply (set_add_all_distinct l []). exact I.
  - intros z. split.
    + intros Hz. apply (in_map JInt) in Hz. rewrite <- Hmap in Hz.
      apply filter_In in Hz as [Hz Ht]. split; [|exact Ht].
      apply set_add_all_In in Hz as [[]|Hz]. exact Hz.
    + intros [Hz Ht].
      destruct (set_add_all_represented (JInt z) l [] Hz) as (m & Hm & Em).
      assert (Hz0 : z <> 0).
      { rewrite truthy_JInt in Ht. apply negb_true_iff, Z.eqb_neq in Ht.
        exact Ht. }
      pose proof (same_value_zero_truthy z m Hz0 Em) as Htm.
      assert (HmY : In m Y) by (apply filter_In; split; assumption).
      destruct (HY m HmY) as (z' & -> & _).
      rewrite same_value_zero_JInt in Em. apply Z.eqb_eq in Em. subst z'.
      rewrite Hmap in HmY. apply in_map_iff in HmY as (z'' & E & Hin).
      apply JInt_inj in E. now subst z''.
Qed.

(** *** The select elements *)

Lemma append_options_spec values sel :
  append_options values sel
  = {| options := options sel ++ values; selected := selected sel |}.
Proof.
  unfold append_options. revert sel.
  induction values as [|v values IH]; intros sel; simpl.
  - rewrite app_nil_r. now destruct sel.
  - rewrite IH. simpl. now rewrite <- app_assoc.
Qed.

Lemma set_value_member v sel :
  In v (options sel) -> set_value v sel = {| options := options sel; selected := v |}.
Proof.
  intros H. unfold set_value.
  replace (existsb (String.eqb v) (options sel)) with true; [reflexivity|].
  symmetry. apply existsb_exists. exists v. split; [exact H|].
  apply String.eqb_refl.
Qed.

Lemma head_map {A B} (g : A -> B) (l : list A) :
  head (map g l) = option_map g (head l).
Proof. now destruct l. Qed.

Lemma last_map {A B} (g : A -> B) (l : list A) :
  last (map g l) = option_map g (last l).
Proof.
  induction l as [|x [|y l] IH]; [reflexivity | reflexivity |].
  cbn [map] in *. now rewrite !last_cons_cons.
Qed.

Lemma head_In {A} (l : list A) x : head l = Some x -> In x l.
Proof. destruct l; [discriminate|]. intros [= ->]. now left. Qed.

Lemma last_In {A} (l : list A) x : last l = Some x -> In x l.
Proof.
  induction l as [|y [|z l] IH]; [discriminate | |].
  - intros [= ->]. now left.
  - rewrite last_cons_cons. intros H. right. auto.
Qed.

(** The default sort orders the years by their strings: in
    [src/unnamed/part_000] the years 999, 2010 and 2019 are listed as
    2010, 2019, 999, and the default range runs from 2010 to 999. *)
Example default_sort_is_by_string :
  derived_years [albania_999; albania_2010; serbia_2019]
  = Some [JInt 2010; JInt 2019; JInt 999]
  /\ exists c,
       Part000.populateFilters_years [albania_999; albania_2010; serbia_2019]
         initial_controls = Some c
       /\ options (yearFromFilter c) = ["2010"; "2019"; "999"]
       /\ selected (yearFromFilter c) = "2010"
       /\ selected (yearToFilter c) = "999".
Proof.
  split; [reflexivity|].
  eexists. split; [reflexivity|]. repeat split.
Qed.

(** C9, as stated, fails in [src/script.js]: the year options are the
    fixed years 2015 to 2022 and the defaults 2015 and 2022, whatever
    the loaded records, so a year observed in the records, such as 2010,
    is no option and is not the default "from". *)
Lemma C9_counterexample_fixed_years :
  DataPoint.year albania_2010 = JInt 2010
  /\ options (yearFromFilter (ScriptJs.populateFilters_years initial_controls))
     = ["2015"; "2016"; "2017"; "2018"; "2019"; "2020"; "2021"; "2022"]
  /\ ~ In "2010"
       (options (yearFromFilter (ScriptJs.populateFilters_years initial_controls)))
  /\ selected (yearFromFilter (ScriptJs.populateFilters_years initial_controls))
     = "2015"
  /\ selected (yearToFilter (ScriptJs.populateFilters_years initial_controls))
     = "2022".
Proof.
  split; [reflexivity|]. split; [reflexivity|]. split; [|split; reflexivity].
  vm_compute. intuition discriminate.
Qed.

(** C9, amended: when the years of the loaded records, other than the
    falsy ones, are four-digit integers, the derived year options are
    exactly the distinct such years in ascending order, appended to both
    selects of the range in [src/unnamed/part_000] and to the year
    select in [src/unnamed/part_001]; in [src/unnamed/part_000] the
    default "from" is the smallest and the default "to" the largest of
    them. In [src/script.js] the options are the fixed years 2015 to
    2022 with the defaults 2015 and 2022. *)
Theorem C9_year_options (items : list DataPoint.t) (c : Controls) :
  (forall r, In r items -> truthy (DataPoint.year r) = true ->
             four_digit_year (DataPoint.year r)) ->
  (exists ys : list Z,
      derived_years items = Some (map JInt ys)
      /\ StronglySorted Z.lt ys
      /\ (forall z, In z ys <->
                    In (JInt z) (map DataPoint.year items)
                    /\ truthy (JInt z) = true)
      /\ (exists c',
            Part000.populateFilters_years items c = Some c'
            /\ options (yearFromFilter c')
               = options (yearFromFilter c) ++ map integer_to_string ys
            /\ options (yearToFilter c')
               = options (yearToFilter c) ++ map integer_to_string ys
            /\ forall lo hi, head ys = Some lo -> last ys = Some hi ->
                 selected (yearFromFilter c') = integer_to_string lo
                 /\ selected (yearToFilter c') = integer_to_string hi
                 /\ forall z, In z ys -> lo <= z <= hi)
      /\ (exists c',
            Part001.populateFilters_years items c = Some c'
            /\ options (yearFilter c')
               = options (yearFilter c) ++ map integer_to_string ys))
  /\ options (yearFromFilter (ScriptJs.populateFilters_years c))
     = options (yearFromFilter c) ++ map integer_to_string ScriptJs.years
  /\ options (yearToFilter (ScriptJs.populateFilters_years c))
     = options (yearToFilter c) ++ map integer_to_string ScriptJs.years
  /\ selected (yearFromFilter (ScriptJs.populateFilters_years c)) = "2015"
  /\ selected (yearToFilter (ScriptJs.populateFilters_years c)) = "2022".
Proof.
  intros Hyears. split.
  - destruct (truthy_years items Hyears) as (zs & HY & Hfour & Hnodup & Hmem).
    set (ys := sort_Z zs).
    assert (Hfour' : Forall four_digits ys).
    { apply List.Forall_forall. intros z Hz.
      rewrite List.Forall_forall in Hfour. apply Hfour.
      apply (proj1 (sort_Z_In z zs)). exact Hz. }
    assert (Hderived : derived_years items = Some (map JInt ys)).
    { unfold derived_years. rewrite HY. now apply sort_JInt. }
    assert (Hsorted : StronglySorted Z.lt ys) by now apply sort_Z_sorted.
    assert (Hvalues : map fst (map keyed ys) = map integer_to_string ys).
    { rewrite map_map. reflexivity. }
    exists ys. split; [exact Hderived|]. split; [exact Hsorted|].
    split; [|split].
    + intros z. unfold ys. rewrite sort_Z_In. apply Hmem.
    + unfold Part000.populateFilters_years.
      rewrite Hderived, with_strings_JInt by assumption. rewrite Hvalues.
      rewrite head_map, last_map, !append_options_spec.
      destruct (head ys) as [lo|] eqn:Hlo, (last ys) as [hi|] eqn:Hhi;
        cbn [option_map].
      * pose proof (head_In _ _ Hlo) as Hlo'.
        pose proof (last_In _ _ Hhi) as Hhi'.
        rewrite !set_value_member
          by (cbn [options]; apply in_app_iff; right; now apply in_map).
        eexists. split; [reflexivity|]. cbn.
        split; [reflexivity|]. split; [reflexivity|].
        intros lo0 hi0 [= <-] [= <-].
        split; [reflexivity|]. split; [reflexivity|].
        now apply (sorted_bounds ys lo hi).
      * eexists. split; [reflexivity|]. cbn.
        split; [reflexivity|]. split; [reflexivity|]. discriminate.
      * eexists. split; [reflexivity|]. cbn.
        split; [reflexivity|]. split; [reflexivity|]. discriminate.
      * eexists. split; [reflexivity|]. cbn.
        split; [reflexivity|]. split; [reflexivity|]. discriminate.
    + unfold Part001.populateFilters_years.
      rewrite Hderived, with_strings_JInt by assumption. rewrite Hvalues.
      rewrite append_options_spec. eexists. split; reflexivity.
  - unfold ScriptJs.populateFilters_years. rewrite !append_options_spec.
    rewrite !set_value_member
      by (cbn [options]; apply in_app_iff; right; vm_compute; auto 10).
    repeat split.
Qed.

Lemma C9_witness :
  derived_years [serbia_2019; albania_2010; albania_2019]
  = Some [JInt 2010; JInt 2019].
Proof.
  destruct (C9_year_options [serbia_2019; albania_2010; albania_2019]
              initial_controls) as [(ys & H & _) _].
  - intros r [<-|[<-|[<-|[]]]] _; eexists; (split; [reflexivity|]);
      unfold four_digits; lia.
  - reflexivity.
Defined.

(** * Further properties of the scripts *)

(** ** Filtering again, and relaxing the spec *)

Lemma filter_idempotent {A} (p : A -> bool) (l : list A) :
  List.filter p (List.filter p l) = List.filter p l.
Proof.
  rewrite filter_filter. apply List.filter_ext. intros x. now destruct (p x).
Qed.

(** Applying the filters to their own result changes nothing, unless
    the result is empty: then the second call ends in the no-data
    message, not in an empty result. *)
Theorem refiltering_the_result (v : Variant) (items out : list DataPoint.t)
    (f : Filters.t) :
  run v (Array items) f = Filtered out ->
  run v (Array out) f = match out with
                        | [] => NoData
                        | _ :: _ => Filtered out
                        end.
Proof.
  intros Hrun.
  apply run_Filtered in Hrun as (items' & [= <-] & _ & Hguard & ->).
  destruct (List.filter (keeps v f) items) as [|r out] eqn:E.
  - destruct v; reflexivity.
  - rewrite run_nonempty by discriminate. rewrite Hguard, <- E.
    now rewrite filter_idempotent.
Qed.

Lemma refiltering_witness :
  run part_000 (Array [serbia_2019]) basic_layer = Filtered [serbia_2019]
  /\ run part_000 (Array []) (with_layer (Some "None") basic_layer) = NoData.
Proof.
  split.
  - apply (refiltering_the_result part_000 [albania_2019; serbia_2019]
             [serbia_2019] basic_layer eq_refl).
  - apply (refiltering_the_result part_000 [albania_2019; serbia_2019] []
             (with_layer (Some "None") basic_layer) eq_refl).
Defined.

Lemma matches_relaxed g f v :
  field_relaxed g f -> matches f v = true -> matches g v = true.
Proof.
  intros [H | ->]; [|auto]. intros _.
  destruct g as [s|]; [|reflexivity]. simpl in *.
  apply negb_false_iff in H. now rewrite H.
Qed.

Lemma keeps_relaxed v g f r :
  relaxes g f -> keeps v f r = true -> keeps v g r = true.
Proof.
  intros (Hc & Hi & Hfrom & Hto & Hyear & Hlayer). unfold keeps.
  repeat rewrite andb_true_iff. intros ((((Hmc & Hmi) & Hy) & Hval) & Hl).
  repeat split.
  - eapply matches_relaxed; eauto.
  - eapply matches_relaxed; eauto.
  - unfold year_ok, from_ok, to_ok, exact_ok in *. destruct (range_mode v).
    + apply andb_true_iff in Hy as [Ha Hb]. apply andb_true_iff. split.
      * destruct Hfrom as [-> | ->]; [reflexivity | exact Ha].
      * destruct Hto as [-> | ->]; [reflexivity | exact Hb].
    + destruct Hyear as [-> | ->]; [reflexivity | exact Hy].
  - exact Hval.
  - destruct (layer_applied v); [|reflexivity]. unfold layer_ok in *.
    destruct Hlayer as [[H | ->] | ->]; [| exact Hl | reflexivity].
    destruct (Filters.layer g) as [s|]; [|reflexivity]. simpl in H.
    apply negb_false_iff in H. now rewrite H.
Qed.

Lemma range_inverted_relaxed g f :
  relaxes g f -> range_inverted g = true -> range_inverted f = true.
Proof.
  intros (_ & _ & Hfrom & Hto & _). unfold range_inverted.
  destruct Hfrom as [-> | ->]; [discriminate|].
  destruct Hto as [-> | ->]; [rewrite andb_false_r; discriminate|]. auto.
Qed.

(** Relaxing a spec (clearing fields, or setting the layer to "All")
    never turns a successful evaluation into a failure and never loses a
    record: the result of the stricter spec is the result of the relaxed
    one, filtered by the stricter spec, in the same order. *)
Theorem relaxing_the_spec (v : Variant) (items out : list DataPoint.t)
    (f g : Filters.t) :
  relaxes g f ->
  run v (Array items) f = Filtered out ->
  exists wider,
    run v (Array items) g = Filtered wider
    /\ out = List.filter (keeps v f) wider
    /\ sublist out wider.
Proof.
  intros Hrel Hrun.
  apply run_Filtered in Hrun as (items' & [= <-] & Hne & Hguard & ->).
  exists (List.filter (keeps v g) items).
  assert (Hout : List.filter (keeps v f) items
                 = List.filter (keeps v f) (List.filter (keeps v g) items)).
  { rewrite filter_filter. apply List.filter_ext. intros r.
    destruct (keeps v f r) eqn:E; [|now rewrite andb_false_r].
    now rewrite (keeps_relaxed v g f r Hrel E). }
  split; [|split].
  - rewrite run_nonempty by assumption.
    destruct (range_mode v); [|reflexivity]. simpl in *.
    destruct (range_inverted g) eqn:E; [|reflexivity].
    apply (range_inverted_relaxed g f Hrel) in E. congruence.
  - exact Hout.
  - rewrite Hout. apply filter_sublist.
Qed.

Lemma relaxing_witness :
  exists wider,
    run script_js (Array [albania_2019; serbia_2019; albania_2010])
      (range_spec None None (Some "2015") None)
    = Filtered wider
    /\ [albania_2019] = List.filter
         (keeps script_js (range_spec (Some "Albania") None (Some "2015")
                             (Some "2022"))) wider
    /\ sublist [albania_2019] wider.
Proof.
  apply (relaxing_the_spec script_js [albania_2019; serbia_2019; albania_2010]
           [albania_2019]
           (range_spec (Some "Albania") None (Some "2015") (Some "2022"))
           (range_spec None None (Some "2015") None)).
  - unfold relaxes, field_relaxed. simpl. tauto.
  - reflexivity.
Defined.

(** ** A range of one year, and the exact year *)

Lemma range_of_one_number n m :
  js_ge (JNum n) (JNum m) && js_le (JNum n) (JNum m)
  = strict_eq (JNum n) (JNum m).
Proof.
  unfold js_ge, js_le, strict_eq, num_eqb, js_compare, ToNumber.
  destruct (num_compare n m) as [[]|]; reflexivity.
Qed.

(** On records whose year is a number, the range variants with the same
    non-empty string for both bounds give what the exact-year variant
    gives for that year: the range is never rejected and keeps the
    records of that very year. *)
Theorem range_of_one_year_is_exact_year (v : Variant)
    (items : list DataPoint.t) (country indicator : option string)
    (year : string) :
  range_mode v = true ->
  year <> "" ->
  Forall numeric_year items ->
  run v (Array items) (range_spec country indicator (Some year) (Some year))
  = run part_001 (Array items) (exact_spec country indicator (Some year)).
Proof.
  intros Hmode Hyear Hnum. rewrite !run_spec.
  destruct items as [|r0 items0]; [reflexivity|].
  set (items := r0 :: items0) in *.
  rewrite !filter_rows_spec, Hmode. cbn [range_mode andb].
  apply String.eqb_neq in Hyear.
  assert (Hinv : range_inverted
                   (range_spec country indicator (Some year) (Some year))
                 = false).
  { unfold range_inverted, js_gt, js_compare, bound, ToNumber. simpl.
    rewrite Hyear. simpl.
    destruct (parseInt year) as [|b|q]; simpl; try reflexivity.
    - now destruct b.
    - now rewrite (proj1 (Qeq_alt q q) (Qeq_refl q)). }
  rewrite Hinv. f_equal.
  apply filter_ext_in. intros r Hr.
  rewrite List.Forall_forall in Hnum. destruct (Hnum r Hr) as [n Hn].
  unfold keeps, year_ok, from_ok, to_ok, exact_ok, layer_ok, bound, value_missing.
  rewrite Hmode. simpl. rewrite Hyear, Hn. simpl.
  rewrite range_of_one_number.
  destruct v; try discriminate Hmode; simpl; btauto.
Qed.

Lemma range_of_one_year_witness :
  run part_000 (Array [albania_2019; albania_2010])
    (range_spec None None (Some "2019") (Some "2019"))
  = Filtered [albania_2019].
Proof.
  rewrite (range_of_one_year_is_exact_year part_000
             [albania_2019; albania_2010] None None "2019").
  - reflexivity.
  - reflexivity.
  - discriminate.
  - repeat constructor; eexists; reflexivity.
Defined.

(** ** The option lists of [populateFilters] *)

(** *** The code-unit order of strings *)

Lemma ascii_compare_refl a : Ascii.compare a a = Eq.
Proof. apply N.compare_refl. Qed.

Lemma string_compare_refl s : string_compare s s = Eq.
Proof.
  unfold string_compare. induction s as [|a s IH]; [reflexivity|].
  simpl. now rewrite ascii_compare_refl.
Qed.

Lemma ascii_lt_trans a b c :
  Ascii.compare a b = Lt -> Ascii.compare b c = Lt -> Ascii.compare a c = Lt.
Proof.
  unfold Ascii.compare. rewrite !N.compare_lt_iff. apply N.lt_trans.
Qed.

Lemma string_lt_trans s t u : string_lt s t -> string_lt t u -> string_lt s u.
Proof.
  unfold string_lt, string_compare. revert t u.
  induction s as [|a s IH]; intros [|b t] [|c u]; simpl; try discriminate;
    try reflexivity.
  destruct (Ascii.compare a b) eqn:Eab; try discriminate;
    destruct (Ascii.compare b c) eqn:Ebc; try discriminate.
  - apply Ascii.compare_eq_iff in Eab, Ebc. subst.
    rewrite ascii_compare_refl. apply IH.
  - apply Ascii.compare_eq_iff in Eab. subst. now rewrite Ebc.
  - apply Ascii.compare_eq_iff in Ebc. subst. now rewrite Eab.
  - now rewrite (ascii_lt_trans a b c Eab Ebc).
Qed.

Lemma string_compare_gt s t : string_compare s t = Gt <-> string_lt t s.
Proof.
  unfold string_lt, string_compare. rewrite (String.compare_antisym t s).
  destruct (String.compare s t); simpl; intuition discriminate.
Qed.

Lemma string_le_lt s t : string_le s t <-> s = t \/ string_lt s t.
Proof.
  unfold string_le, string_lt.
  destruct (string_compare s t) eqn:E.
  - apply String.compare_eq_iff in E. intuition discriminate.
  - intuition discriminate.
  - split; [congruence|]. intros [-> | H]; [|discriminate].
    rewrite string_compare_refl in E. discriminate.
Qed.

Lemma string_le_trans s t u : string_le s t -> string_le t u -> string_le s u.
Proof.
  rewrite !string_le_lt. intros [-> | H1] [-> | H2]; auto.
  right. eapply string_lt_trans; eauto.
Qed.

(** *** The insertion sort of strings *)

Lemma insert_string_In x s l : In x (insert_string s l) <-> x = s \/ In x l.
Proof.
  induction l as [|t l IH]; simpl; [intuition|].
  destruct (string_compare t s); simpl; rewrite ?IH; intuition.
Qed.

Lemma sort_strings_In x l : In x (sort_strings l) <-> In x l.
Proof.
  induction l as [|s l IH]; simpl; [tauto|].
  rewrite insert_string_In, IH. intuition.
Qed.

Lemma insert_string_length s l :
  length (insert_string s l) = S (length l).
Proof.
  induction l as [|t l IH]; simpl; [reflexivity|].
  destruct (string_compare t s); simpl; congruence.
Qed.

Lemma sort_strings_length l : length (sort_strings l) = length l.
Proof.
  induction l as [|s l IH]; simpl; [reflexivity|].
  now rewrite insert_string_length, IH.
Qed.

Lemma insert_string_sorted s l :
  StronglySorted string_le l -> StronglySorted string_le (insert_string s l).
Proof.
  induction 1 as [|t l Hl IH Ht]; simpl.
  - repeat constructor.
  - rewrite List.Forall_forall in Ht.
    destruct (string_compare t s) eqn:E.
    + constructor; [constructor; [assumption | now apply List.Forall_forall]|].
      apply String.compare_eq_iff in E. subst t.
      apply List.Forall_forall. intros x [<-|Hx]; [|auto].
      unfold string_le. rewrite string_compare_refl. discriminate.
    + constructor; [exact IH|].
      apply List.Forall_forall. intros x Hx.
      apply insert_string_In in Hx as [->|Hx]; [|auto].
      unfold string_le. congruence.
    + constructor; [constructor; [assumption | now apply List.Forall_forall]|].
      assert (Hst : string_le s t).
      { apply string_le_lt. right. now apply string_compare_gt. }
      apply List.Forall_forall. intros x [<-|Hx]; [exact Hst|].
      eapply string_le_trans; eauto.
Qed.

Lemma sort_strings_sorted l : StronglySorted string_le (sort_strings l).
Proof.
  induction l as [|s l IH]; simpl; [constructor|].
  now apply insert_string_sorted.
Qed.

Lemma insert_string_NoDup s l :
  List.NoDup l -> ~ In s l -> List.NoDup (insert_string s l).
Proof.
  induction 1 as [|t l Ht Hl IH]; intros Hs; simpl.
  - constructor; [tauto | constructor].
  - destruct (string_compare t s).
    + constructor; [exact Hs | now constructor].
    + constructor.
      * rewrite insert_string_In. intros [-> | H]; [|contradiction].
        apply Hs. now left.
      * apply IH. intros H. apply Hs. now right.
    + constructor; [exact Hs | now constructor].
Qed.

Lemma sort_strings_NoDup l : List.NoDup l -> List.NoDup (sort_strings l).
Proof.
  induction 1 as [|s l Hs Hl IH]; simpl; [constructor|].
  apply insert_string_NoDup; [exact IH|]. now rewrite sort_strings_In.
Qed.

Lemma sorted_strict l :
  StronglySorted string_le l -> List.NoDup l -> StronglySorted string_lt l.
Proof.
  induction 1 as [|s l Hl IH Hs]; intros Hnd; [constructor|].
  inversion Hnd as [|? ? Hnot Hnd']; subst.
  constructor; [auto|].
  rewrite List.Forall_forall in *. intros x Hx.
  destruct (proj1 (string_le_lt s x) (Hs x Hx)) as [-> | H];
    [contradiction | exact H].
Qed.

(** *** The default sort on string values *)

Lemma with_strings_JStr l :
  with_strings (map JStr l) = Some (map string_keyed l).
Proof.
  induction l as [|s l IH]; [reflexivity|].
  cbn [map with_strings ToString]. now rewrite IH.
Qed.

Lemma insert_sorted_string_keyed s l :
  insert_sorted (string_keyed s) (map string_keyed l)
  = map string_keyed (insert_string s l).
Proof.
  induction l as [|t l IH]; [reflexivity|].
  cbn [map insert_sorted insert_string string_keyed fst].
  destruct (string_compare t s); try reflexivity.
  cbn [map]. f_equal. exact IH.
Qed.

Lemma sort_by_string_keyed_strings l :
  sort_by_string (map string_keyed l) = map string_keyed (sort_strings l).
Proof.
  induction l as [|s l IH]; [reflexivity|].
  unfold sort_by_string, sort_strings in *. cbn [map fold_right].
  rewrite IH. apply insert_sorted_string_keyed.
Qed.

Lemma filter_defined_JStr l :
  List.filter (fun v => negb (is_undefined v)) (map JStr l) = map JStr l
  /\ List.filter is_undefined (map JStr l) = [].
Proof.
  induction l as [|s l [IH1 IH2]]; [split; reflexivity|].
  cbn [map List.filter is_undefined negb]. now rewrite IH1, IH2.
Qed.

Lemma sort_JStr l : sort (map JStr l) = Some (map JStr (sort_strings l)).
Proof.
  unfold sort. destruct (filter_defined_JStr l) as [-> ->].
  rewrite with_strings_JStr, sort_by_string_keyed_strings.
  now rewrite app_nil_r, map_map.
Qed.

Lemma append_sorted_JStr l sel :
  append_sorted (map JStr l) sel
  = Some {| options := options sel ++ sort_strings l;
            selected := selected sel |}.
Proof.
  unfold append_sorted. rewrite sort_JStr, with_strings_JStr.
  rewrite append_options_spec, map_map. cbn [string_keyed fst].
  now rewrite map_id.
Qed.

(** *** The members of a Set of strings *)

Lemma same_value_zero_JStr s m :
  same_value_zero (JStr s) m = true -> m = JStr s.
Proof.
  destruct m as [| |b|[|b|q]|t]; simpl; try discriminate.
  intros H. apply String.eqb_eq in H. now subst.
Qed.

Lemma distinct_members_JStr l :
  distinct_members (map JStr l) -> List.NoDup l.
Proof.
  induction l as [|s l IH]; cbn [map distinct_members]; [constructor|].
  intros [Hs Hl]. constructor; [|auto]. intros Hin.
  pose proof (Hs (JStr s) (in_map JStr l s Hin)) as E.
  rewrite same_value_zero_refl in E. discriminate.
Qed.

(** The values of a Set that pass a test, when those of the values that
    pass it are strings: these strings, without repetition. *)
Lemma string_members (p : JsVal -> bool) values :
  (forall v, In v values -> p v = true -> is_string v) ->
  exists names,
    List.filter p (distinct values) = map JStr names
    /\ List.NoDup names
    /\ forall s, In s names <-> In (JStr s) values /\ p (JStr s) = true.
Proof.
  intros Hstr.
  set (Y := List.filter p (distinct values)).
  assert (HY : forall y, In y Y -> is_string y).
  { intros y Hy. apply filter_In in Hy as [Hy Hp].
    apply set_add_all_In in Hy as [[]|Hy]. auto. }
  assert (Hmap : Y = map JStr (map string_of Y)).
  { rewrite map_map. rewrite <- (map_id Y) at 1.
    apply map_ext_in. intros y Hy. destruct (HY y Hy) as [s ->]. reflexivity. }
  exists (map string_of Y). split; [exact Hmap|]. split.
  - rewrite <- (rev_involutive (map string_of Y)).
    apply List.NoDup_rev, distinct_members_JStr.
    rewrite List.map_rev, <- Hmap. unfold Y. rewrite <- List.filter_rev.
    apply distinct_members_filter.
    apply (set_add_all_distinct values []). exact I.
  - intros s. split.
    + intros Hs. apply (in_map JStr) in Hs. rewrite <- Hmap in Hs.
      apply filter_In in Hs as [Hs Hp]. split; [|exact Hp].
      apply set_add_all_In in Hs as [[]|Hs]. exact Hs.
    + intros [Hs Hp].
      destruct (set_add_all_represented (JStr s) values [] Hs) as (m & Hm & Em).
      apply same_value_zero_JStr in Em. subst m.
      assert (HsY : In (JStr s) Y) by (apply filter_In; split; assumption).
      rewrite Hmap in HsY. apply in_map_iff in HsY as (t & [= ->] & Hin).
      exact Hin.
Qed.

Lemma filter_all {A} (l : list A) : List.filter (fun _ => true) l = l.
Proof. induction l as [|x l IH]; simpl; congruence. Qed.

(** The options appended for the strings of a field: the distinct
    strings, in ascending order. *)
Lemma append_sorted_strings (p : JsVal -> bool) values sel :
  (forall v, In v values -> p v = true -> is_string v) ->
  exists names,
    append_sorted (List.filter p (distinct values)) sel
    = Some {| options := options sel ++ names; selected := selected sel |}
    /\ StronglySorted string_lt names
    /\ forall s, In s names <-> In (JStr s) values /\ p (JStr s) = true.
Proof.
  intros Hstr.
  destruct (string_members p values Hstr) as (names & -> & Hnd & Hmem).
  exists (sort_strings names). split; [apply append_sorted_JStr|]. split.
  - apply sorted_strict; [apply sort_strings_sorted|].
    now apply sort_strings_NoDup.
  - intros s. rewrite sort_strings_In. apply Hmem.
Qed.

(** *** The years, once more *)

Lemma derived_years_four_digits items :
  (forall r, In r items -> truthy (DataPoint.year r) = true ->
             four_digit_year (DataPoint.year r)) ->
  exists ys,
    derived_years items = Some (map JInt ys)
    /\ with_strings (map JInt ys) = Some (map keyed ys)
    /\ Forall four_digits ys
    /\ StronglySorted Z.lt ys
    /\ forall z, In z ys <->
                 In (JInt z) (map DataPoint.year items)
                 /\ truthy (JInt z) = true.
Proof.
  intros Hyears.
  destruct (truthy_years items Hyears) as (zs & HY & Hfour & Hnodup & Hmem).
  assert (Hfour' : Forall four_digits (sort_Z zs)).
  { apply List.Forall_forall. intros z Hz.
    rewrite List.Forall_forall in Hfour. apply Hfour.
    apply (proj1 (sort_Z_In z zs)). exact Hz. }
  exists (sort_Z zs). split; [|split; [|split; [|split]]].
  - unfold derived_years. rewrite HY. now apply sort_JInt.
  - now apply with_strings_JInt.
  - exact Hfour'.
  - now apply sort_Z_sorted.
  - intros z. rewrite sort_Z_In. apply Hmem.
Qed.

Lemma keyed_values ys : map fst (map keyed ys) = map integer_to_string ys.
Proof. now rewrite map_map. Qed.

(** *** The selects of [src/unnamed/part_000] *)

Lemma well_formed_years items :
  Forall well_formed items ->
  forall r, In r items -> truthy (DataPoint.year r) = true ->
            four_digit_year (DataPoint.year r).
Proof.
  intros H r Hr. rewrite List.Forall_forall in H. apply (H r Hr).
Qed.

Lemma field_strings (field : DataPoint.t -> JsVal) items :
  (forall r, In r items -> is_string (field r)) ->
  forall v, In v (map field items) -> true = true -> is_string v.
Proof.
  intros H v Hv _. apply in_map_iff in Hv as (r & <- & Hr). auto.
Qed.






(** ** What the page shows when the controls are at their defaults *)

Lemma run_with_keeps v items f (p : DataPoint.t -> bool) :
  items <> [] ->
  range_mode v && range_inverted f = false ->
  (forall r, In r items -> keeps v f r = p r) ->
  run v (Array items) f = Filtered (List.filter p items).
Proof.
  intros Hne Hguard Hp. rewrite run_nonempty, Hguard by assumption.
  f_equal. now apply filter_ext_in.
Qed.

(** The exact-year variant with its three selects at the empty value. *)
Lemma part_001_unconstrained st items :
  allIndicatorsData st = Array items ->
  items <> [] ->
  selected (countryFilter (controls st)) = "" ->
  selected (indicatorFilter (controls st)) = "" ->
  selected (yearFilter (controls st)) = "" ->
  Part001.applyFilters None None st
  = Part001.renderResults (set_filteredData (List.filter has_value items) st).
Proof.
  intros Hdata Hne Hc Hi Hy.
  change Part001.applyFilters with (applyFilters part_001).
  rewrite applyFilters_spec. cbn [data_or_default default getFilters].
  rewrite Hdata. unfold Part001.getFilters. rewrite Hc, Hi, Hy.
  rewrite (run_with_keeps part_001 items _ has_value); [reflexivity | assumption
                                                        | reflexivity |].
  intros r _. rewrite has_value_missing. unfold keeps. simpl. btauto.
Qed.

(** The range variants with the country, indicator and layer selects at
    the empty value and the year selects at the strings of two integers
    in order. *)
Lemma range_defaults v st items lo hi :
  range_mode v = true ->
  allIndicatorsData st = Array items ->
  items <> [] ->
  Z.abs lo < 10 ^ 21 -> Z.abs hi < 10 ^ 21 -> lo <= hi ->
  selected (countryFilter (controls st)) = "" ->
  selected (indicatorFilter (controls st)) = "" ->
  selected (layerFilter (controls st)) = "" ->
  selected (yearFromFilter (controls st)) = integer_to_string lo ->
  selected (yearToFilter (controls st)) = integer_to_string hi ->
  applyFilters v None None st
  = renderResults v
      (set_filteredData
         (List.filter
            (fun r => js_ge (DataPoint.year r) (JInt lo)
                      && js_le (DataPoint.year r) (JInt hi)
                      && has_value r) items) st).
Proof.
  intros Hmode Hdata Hne Hlo Hhi Hle Hc Hi Hl Hfrom Hto.
  rewrite applyFilters_spec. cbn [data_or_default default]. rewrite Hdata.
  assert (Hf : getFilters v st
               = Filters.make (Some "") (Some "")
                   (Some (integer_to_string lo)) (Some (integer_to_string hi))
                   None (Some "")).
  { destruct v; try discriminate Hmode; simpl;
      unfold ScriptJs.getFilters, Part000.getFilters;
      now rewrite Hc, Hi, Hl, Hfrom, Hto. }
  rewrite Hf.
  rewrite (run_with_keeps v items _
             (fun r => js_ge (DataPoint.year r) (JInt lo)
                       && js_le (DataPoint.year r) (JInt hi)
                       && has_value r)); [reflexivity | assumption | |].
  - rewrite Hmode. unfold range_inverted. cbn [Filters.yearFrom Filters.yearTo].
    rewrite !is_set_integer, !bound_integer, js_gt_JInt by assumption.
    simpl. apply Z.ltb_ge. exact Hle.
  - intros r _. rewrite has_value_missing.
    unfold keeps, year_ok, from_ok, to_ok, layer_ok. rewrite Hmode.
    cbn [Filters.country Filters.indicator Filters.yearFrom Filters.yearTo
         Filters.layer matches String.eqb orb].
    rewrite !is_set_integer, !bound_integer by assumption.
    destruct (layer_applied v); btauto.
Qed.

(** A falsy year is below every positive bound. *)
Lemma falsy_year_below y lo :
  truthy y = false -> 0 < lo -> js_ge y (JInt lo) = false.
Proof.
  intros Hy Hlo. unfold js_ge, js_compare, JInt.
  destruct y as [| |b|[|b|q]|s]; cbn [truthy] in Hy;
    cbn [ToNumber num_compare]; try reflexivity; try discriminate;
    unfold Qcompare; cbn [Qnum Qden inject_Z].
  - destruct (Z.compare_spec (0 * 1) (lo * 1));
      try reflexivity; exfalso; lia.
  - subst b. cbv iota. cbn [Qnum Qden].
    destruct (Z.compare_spec (0 * 1) (lo * 1));
      try reflexivity; exfalso; lia.
  - apply negb_false_iff, Z.eqb_eq in Hy. rewrite Hy.
    destruct (Z.compare_spec (0 * 1) (lo * Zpos (Qden q)));
      try reflexivity; exfalso; lia.
  - apply negb_false_iff, String.eqb_eq in Hy. subst s.
    change (StringToNumber "") with (Fin 0).
    cbn [num_compare]. unfold Qcompare. cbn [Qnum Qden inject_Z].
    destruct (Z.compare_spec (0 * 1) (lo * 1));
      try reflexivity; exfalso; lia.
Qed.

Lemma insert_string_perm s l : Permutation (insert_string s l) (s :: l).
Proof.
  induction l as [|t l IH]; simpl; [reflexivity|].
  destruct (string_compare t s); try reflexivity.
  rewrite IH. apply perm_swap.
Qed.

Lemma sort_strings_perm l : Permutation (sort_strings l) l.
Proof.
  induction l as [|s l IH]; simpl; [reflexivity|].
  rewrite insert_string_perm. now constructor.
Qed.

(** *** The selects of [src/unnamed/part_001] *)

Lemma part_001_years_frame items c c' :
  Part001.populateFilters_years items c = Some c' ->
  countryFilter c' = countryFilter c
  /\ indicatorFilter c' = indicatorFilter c
  /\ selected (yearFilter c') = selected (yearFilter c).
Proof.
  unfold Part001.populateFilters_years.
  destruct (derived_years items) as [years|]; [|discriminate].
  destruct (with_strings years) as [strings|]; [|discriminate].
  intros [= <-]. rewrite append_options_spec. repeat split.
Qed.

Lemma part_001_years_some items c :
  (forall r, In r items -> truthy (DataPoint.year r) = true ->
             four_digit_year (DataPoint.year r)) ->
  exists c', Part001.populateFilters_years items c = Some c'.
Proof.
  intros H.
  destruct (derived_years_four_digits items H) as (ys & Hys & Hstr & _).
  unfold Part001.populateFilters_years. rewrite Hys, Hstr.
  eexists; reflexivity.
Qed.

Lemma strings_listed (l : list JsVal) :
  Forall is_string l -> l = map JStr (map string_of l).
Proof.
  induction 1 as [|v l [s ->] _ IH]; [reflexivity|].
  cbn [map string_of]. now rewrite <- IH.
Qed.

(** The indicator names offered by [src/unnamed/part_001]: the listed
    ones when the manifest lists any, else those of the records. *)
Lemma part_001_indicator_names items (manifest : option (list JsVal)) :
  Forall well_formed items ->
  (forall listed, manifest = Some listed -> Forall is_string listed) ->
  exists names,
    append_sorted
      match manifest with
      | Some ((_ :: _) as listed) => listed
      | _ => distinct (map DataPoint.indicator items)
      end single_empty_option
    = Some {| options := "" :: names; selected := "" |}
    /\ match manifest with
       | Some ((_ :: _) as listed) => names = sort_strings (map string_of listed)
       | _ => StronglySorted string_lt names
              /\ forall s, In s names <->
                   exists r, In r items /\ DataPoint.indicator r = JStr s
       end.
Proof.
  intros Hwf Hlisted. rewrite List.Forall_forall in Hwf.
  assert (Hdata : exists names,
             append_sorted (distinct (map DataPoint.indicator items))
               single_empty_option
             = Some {| options := "" :: names; selected := "" |}
             /\ StronglySorted string_lt names
             /\ forall s, In s names <->
                  exists r, In r items /\ DataPoint.indicator r = JStr s).
  { destruct (append_sorted_strings (fun _ => true)
                (map DataPoint.indicator items) single_empty_option)
      as (names & H & Hs & Hm).
    { apply field_strings. intros r Hr. apply (Hwf r Hr). }
    rewrite filter_all in H. exists names. split; [exact H|].
    split; [exact Hs|]. intros s. rewrite Hm, in_map_iff. split.
    - intros [(r & E & Hr) _]. eauto.
    - intros (r & Hr & E). eauto. }
  destruct manifest as [[|v listed]|]; try exact Hdata.
  exists (sort_strings (map string_of (v :: listed))). split; [|reflexivity].
  rewrite (strings_listed (v :: listed)) at 1 by (now apply Hlisted).
  apply append_sorted_JStr.
Qed.

Lemma part_001_populate items manifest c :
  Forall well_formed items ->
  (forall listed, manifest = Some listed -> Forall is_string listed) ->
  exists names c',
    Part001.populateFilters items manifest c = Some c'
    /\ indicatorFilter c'
       = {| options := "" :: names ++ ["TEST_INDICATOR"]; selected := "" |}
    /\ selected (countryFilter c') = selected (countryFilter c)
    /\ selected (yearFilter c') = selected (yearFilter c)
    /\ match manifest with
       | Some ((_ :: _) as listed) => names = sort_strings (map string_of listed)
       | _ => StronglySorted string_lt names
              /\ forall s, In s names <->
                   exists r, In r items /\ DataPoint.indicator r = JStr s
       end.
Proof.
  intros Hwf Hlisted.
  destruct (part_001_indicator_names items manifest Hwf Hlisted)
    as (names & Hnames & Hchar).
  pose proof Hwf as Hwf'. rewrite List.Forall_forall in Hwf'.
  destruct (append_sorted_strings (fun _ => true)
              (map DataPoint.country items) (countryFilter c))
    as (countries & Hc & _).
  { apply field_strings. intros r Hr. apply (Hwf' r Hr). }
  rewrite filter_all in Hc.
  exists names. unfold Part001.populateFilters. rewrite Hc, Hnames.
  match goal with
  | |- exists c', Part001.populateFilters_years items ?c1 = Some c' /\ _ =>
      destruct (part_001_years_some items c1 (well_formed_years items Hwf))
        as (c2 & Hc2);
      destruct (part_001_years_frame items c1 c2 Hc2) as (F1 & F2 & F3)
  end.
  exists c2. split; [exact Hc2|]. rewrite F1, F2, F3.
  repeat split. exact Hchar.
Qed.

(** In [src/unnamed/part_001], on a well-formed dataset, populateFilters
    rebuilds the indicator select whatever it held: its options are the
    empty one, then the names of the manifest in ascending order
    (repetitions included) when the manifest lists any, else the
    distinct indicators of the records in ascending order, and last the
    test option; the empty option is the selected one. *)
Theorem part_001_indicator_options (items : list DataPoint.t)
    (manifest : option (list JsVal)) (c : Controls) :
  Forall well_formed items ->
  (forall listed, manifest = Some listed -> Forall is_string listed) ->
  exists names c',
    Part001.populateFilters items manifest c = Some c'
    /\ indicatorFilter c'
       = {| options := "" :: names ++ ["TEST_INDICATOR"]; selected := "" |}
    /\ match manifest with
       | Some ((_ :: _) as listed) =>
           names = sort_strings (map string_of listed)
           /\ Permutation names (map string_of listed)
           /\ StronglySorted string_le names
       | _ => StronglySorted string_lt names
              /\ forall s, In s names <->
                   exists r, In r items /\ DataPoint.indicator r = JStr s
       end.
Proof.
  intros Hwf Hlisted.
  destruct (part_001_populate items manifest c Hwf Hlisted)
    as (names & c' & H1 & H2 & _ & _ & H3).
  exists names, c'. split; [exact H1|]. split; [exact H2|].
  destruct manifest as [[|v listed]|]; try exact H3.
  subst names. split; [reflexivity|]. split.
  - apply sort_strings_perm.
  - apply sort_strings_sorted.
Qed.

Lemma part_001_indicator_options_witness :
  exists c',
    Part001.populateFilters [albania_2019]
      (Some [JStr "Research effort"; JStr "Energy availability"])
      initial_controls = Some c'
    /\ indicatorFilter c'
       = {| options := [""; "Energy availability"; "Research effort";
                        "TEST_INDICATOR"];
            selected := "" |}.
Proof.
  destruct (part_001_indicator_options [albania_2019]
              (Some [JStr "Research effort"; JStr "Energy availability"])
              initial_controls) as (names & c' & H1 & H2 & -> & _).
  - repeat constructor; try (eexists; reflexivity);
      intros _; eexists; try split; try reflexivity; unfold four_digits; lia.
  - intros listed [= <-]. repeat constructor; eexists; reflexivity.
  - exists c'. split; [exact H1 | exact H2].
Defined.

(** ** Loading the data set *)

Lemma fetch_document_parsed response document :
  ok response = true -> body response = Parsed document ->
  fetch_document (Responded response) = inr document.
Proof. intros H1 H2. unfold fetch_document. now rewrite H1, H2. Qed.

Lemma selected_set_value_empty sel : selected (set_value "" sel) = "".
Proof. unfold set_value. simpl. now destruct (existsb _ _). Qed.

Lemma summary_renderResults v st :
  summary (renderResults v st) = PointsAfterFilter (length (filteredData st)).
Proof.
  destruct v; simpl.
  - unfold ScriptJs.renderResults, ScriptJs.renderPreview.
    now destruct (take 10 _).
  - unfold Part000.renderResults, Part000.renderPreview.
    now destruct (filteredData st) eqn:E.
  - unfold Part001.renderResults, Part001.renderPreview.
    now destruct (filteredData st) eqn:E.
Qed.

(** What a call that stores [rows] leaves behind. *)
Lemma rendered v rows st :
  filteredData (renderResults v (set_filteredData rows st)) = rows
  /\ summary (renderResults v (set_filteredData rows st))
     = PointsAfterFilter (length rows)
  /\ alerts (renderResults v (set_filteredData rows st)) = alerts st
  /\ allIndicatorsData (renderResults v (set_filteredData rows st))
     = allIndicatorsData st
  /\ controls (renderResults v (set_filteredData rows st)) = controls st.
Proof.
  rewrite filteredData_renderResults, summary_renderResults.
  destruct (allIndicatorsData_renderResults v (set_filteredData rows st))
    as (H1 & H2 & H3).
  rewrite H1, H2, H3. repeat split.
Qed.

(** In [src/unnamed/part_001], a successful load of a well-formed,
    non-empty data set into a page whose country and year selects show
    their empty option stores the data set and displays every record
    that has a value, counting them all, without alert. *)
Theorem part_001_load_shows_all (response : Response) (document : Document)
    (items : list DataPoint.t) (not_a_function : string) (st : State) :
  ok response = true ->
  body response = Parsed document ->
  data_points document = Array items ->
  items <> [] ->
  Forall well_formed items ->
  (forall listed, indicators document = Some listed -> Forall is_string listed) ->
  shows_all (countryFilter (controls st)) ->
  shows_all (yearFilter (controls st)) ->
  exists st',
    Part001.initDashboard (Responded response) not_a_function st = Some st'
    /\ allIndicatorsData st' = Array items
    /\ filteredData st' = List.filter has_value items
    /\ summary st' = PointsAfterFilter (length (List.filter has_value items))
    /\ alerts st' = alerts st.
Proof.
  intros Hok Hbody Hdata Hne Hwf Hlisted [Hc _] [Hy _].
  unfold Part001.initDashboard.
  rewrite (fetch_document_parsed response document Hok Hbody).
  unfold data_points_or_empty. rewrite Hdata.
  cbn [allIndicatorsData set_allIndicatorsData controls].
  destruct (part_001_populate items (indicators document) (controls st)
              Hwf Hlisted) as (names & c' & -> & Hi & Hc' & Hy' & _).
  eexists. split; [reflexivity|].
  rewrite (part_001_unconstrained _ items); cbn [allIndicatorsData controls
    set_controls set_allIndicatorsData]; try congruence.
  - destruct (rendered part_001 (List.filter has_value items)
                (set_controls c'
                   (set_allIndicatorsData (Array items) st)))
      as (H1 & H2 & H3 & H4 & _).
    change Part001.renderResults with (renderResults part_001).
    rewrite H1, H2, H3, H4. repeat split.
  - now rewrite Hi.
Qed.

Lemma part_001_load_witness :
  exists st',
    Part001.initDashboard
      (Responded {| status := 200;
                    body := Parsed {| data_points :=
                                        Array [albania_2019; serbia_2019];
                                      indicators := None |} |})
      "allIndicatorsData.map is not a function"
      (set_controls (empty_controls_3 initial_controls) initial_state)
    = Some st'
    /\ filteredData st' = [albania_2019; serbia_2019].
Proof.
  destruct (part_001_load_shows_all
              {| status := 200;
                 body := Parsed {| data_points :=
                                     Array [albania_2019; serbia_2019];
                                   indicators := None |} |}
              {| data_points := Array [albania_2019; serbia_2019];
                 indicators := None |}
              [albania_2019; serbia_2019]
              "allIndicatorsData.map is not a function"
              (set_controls (empty_controls_3 initial_controls) initial_state))
    as (st' & H1 & _ & H3 & _).
  - reflexivity.
  - reflexivity.
  - reflexivity.
  - discriminate.
  - repeat constructor; try (eexists; reflexivity);
      intros _; eexists; try split; try reflexivity; unfold four_digits; lia.
  - discriminate.
  - split; [reflexivity | now left].
  - split; [reflexivity | now left].
  - exists st'. split; [exact H1 | exact H3].
Defined.

(** In [src/unnamed/part_001], Clear Filters on a loaded, non-empty
    data set displays every record that has a value, whatever was
    selected before, and leaves the three selects at the empty value. *)
Theorem part_001_clear_shows_all (items : list DataPoint.t) (st : State) :
  allIndicatorsData st = Array items ->
  items <> [] ->
  filteredData (Part001.clearFilters_click st) = List.filter has_value items
  /\ summary (Part001.clearFilters_click st)
     = PointsAfterFilter (length (List.filter has_value items))
  /\ selected (countryFilter (controls (Part001.clearFilters_click st))) = ""
  /\ selected (indicatorFilter (controls (Part001.clearFilters_click st))) = ""
  /\ selected (yearFilter (controls (Part001.clearFilters_click st))) = "".
Proof.
  intros Hdata Hne. unfold Part001.clearFilters_click.
  rewrite (part_001_unconstrained _ items);
    cbn [allIndicatorsData controls set_controls countryFilter indicatorFilter
         yearFilter set_countryFilter set_indicatorFilter set_yearFilter];
    try assumption; try apply selected_set_value_empty.
  change Part001.renderResults with (renderResults part_001).
  match goal with
  | |- context [renderResults part_001 (set_filteredData ?rows ?s)] =>
      destruct (rendered part_001 rows s) as (H1 & H2 & _ & _ & H5)
  end.
  rewrite H1, H2, H5.
  cbn [controls set_controls countryFilter indicatorFilter yearFilter
       set_countryFilter set_indicatorFilter set_yearFilter].
  rewrite !selected_set_value_empty. repeat split.
Qed.

Lemma part_001_clear_witness :
  filteredData
    (Part001.clearFilters_click
       (set_allIndicatorsData (Array [albania_2019; serbia_2019]) initial_state))
  = [albania_2019; serbia_2019].
Proof.
  apply (part_001_clear_shows_all [albania_2019; serbia_2019]
           (set_allIndicatorsData (Array [albania_2019; serbia_2019])
              initial_state)).
  - reflexivity.
  - discriminate.
Defined.

(** *** [src/script.js]: the fixed range *)





(** In [src/script.js], Clear Filters on a loaded, non-empty data set
    whose year selects offer 2015 and 2022 brings back the default view:
    the records of the years 2015 to 2022 that have a value, whatever
    was selected before. *)
Theorem script_js_clear_restores_default (items : list DataPoint.t)
    (st : State) :
  allIndicatorsData st = Array items ->
  items <> [] ->
  In "2015" (options (yearFromFilter (controls st))) ->
  In "2022" (options (yearToFilter (controls st))) ->
  filteredData (ScriptJs.clearFilters_click st)
  = List.filter
      (fun r => js_ge (DataPoint.year r) (JInt 2015)
                && js_le (DataPoint.year r) (JInt 2022)
                && has_value r) items
  /\ alerts (ScriptJs.clearFilters_click st) = alerts st
  /\ selected (yearFromFilter (controls (ScriptJs.clearFilters_click st)))
     = "2015"
  /\ selected (yearToFilter (controls (ScriptJs.clearFilters_click st)))
     = "2022".
Proof.
  intros Hdata Hne Hfrom Hto. unfold ScriptJs.clearFilters_click.
  change ScriptJs.applyFilters with (applyFilters script_js).
  rewrite (range_defaults script_js _ items 2015 2022);
    cbn [allIndicatorsData controls set_controls countryFilter indicatorFilter
         layerFilter yearFromFilter yearToFilter set_countryFilter
         set_indicatorFilter set_layerFilter set_year_range];
    try assumption; try reflexivity; try lia;
    try apply selected_set_value_empty;
    try (rewrite set_value_member by assumption; reflexivity).
  match goal with
  | |- context [renderResults script_js (set_filteredData ?rows ?s)] =>
      destruct (rendered script_js rows s) as (H1 & _ & H3 & _ & H5)
  end.
  rewrite H1, H3, H5.
  cbn [controls set_controls yearFromFilter yearToFilter set_layerFilter
       set_year_range set_countryFilter set_indicatorFilter].
  rewrite (set_value_member "2015"), (set_value_member "2022") by assumption.
  repeat split.
Qed.

Lemma script_js_clear_witness :
  filteredData
    (ScriptJs.clearFilters_click
       (set_controls (ScriptJs.populateFilters_years initial_controls)
          (set_allIndicatorsData (Array [albania_2019; albania_2010])
             initial_state)))
  = [albania_2019].
Proof.
  apply (script_js_clear_restores_default [albania_2019; albania_2010]
           (set_controls (ScriptJs.populateFilters_years initial_controls)
              (set_allIndicatorsData (Array [albania_2019; albania_2010])
                 initial_state))).
  - reflexivity.
  - discriminate.
  - vm_compute. auto 10.
  - vm_compute. auto 10.
Defined.

(** *** [src/unnamed/part_000]: the range of the data *)

Lemma head_last_nonempty {A} (l : list A) x :
  In x l -> exists lo hi, head l = Some lo /\ last l = Some hi.
Proof.
  intros Hx. destruct l as [|y l]; [destruct Hx|].
  exists y. destruct (last (y :: l)) as [hi|] eqn:E; [eauto|].
  apply last_None in E. discriminate.
Qed.

(** With the bounds at the first and last of the derived years, the
    year passes keep the records that have a year. *)
Lemma full_range items ys lo hi :
  (forall r, In r items -> truthy (DataPoint.year r) = true ->
             four_digit_year (DataPoint.year r)) ->
  Forall four_digits ys ->
  StronglySorted Z.lt ys ->
  (forall z, In z ys <->
             In (JInt z) (map DataPoint.year items) /\ truthy (JInt z) = true) ->
  head ys = Some lo -> last ys = Some hi ->
  forall r, In r items ->
    js_ge (DataPoint.year r) (JInt lo) && js_le (DataPoint.year r) (JInt hi)
    = truthy (DataPoint.year r).
Proof.
  intros Hyears Hfour Hsorted Hmem Hlo Hhi r Hr.
  rewrite List.Forall_forall in Hfour.
  destruct (truthy (DataPoint.year r)) eqn:Ht.
  - destruct (Hyears r Hr Ht) as (z & Hz & _). rewrite Hz in *.
    assert (Hin : In z ys).
    { apply Hmem. split; [|exact Ht]. rewrite <- Hz. now apply in_map. }
    pose proof (sorted_bounds ys lo hi Hsorted Hlo Hhi z Hin) as [H1 H2].
    rewrite js_ge_JInt, js_le_JInt.
    apply andb_true_iff. split; now apply Z.leb_le.
  - rewrite falsy_year_below; [reflexivity | exact Ht |].
    pose proof (Hfour lo (head_In _ _ Hlo)) as [H _]. lia.
Qed.

Lemma part_000_populate items c :
  Forall well_formed items ->
  exists ys c',
    Part000.populateFilters items c = Some c'
    /\ derived_years items = Some (map JInt ys)
    /\ Forall four_digits ys
    /\ StronglySorted Z.lt ys
    /\ (forall z, In z ys <->
                  In (JInt z) (map DataPoint.year items)
                  /\ truthy (JInt z) = true)
    /\ selected (countryFilter c') = selected (countryFilter c)
    /\ selected (indicatorFilter c') = selected (indicatorFilter c)
    /\ selected (layerFilter c') = selected (layerFilter c)
    /\ forall lo hi, head ys = Some lo -> last ys = Some hi ->
         selected (yearFromFilter c') = integer_to_string lo
         /\ selected (yearToFilter c') = integer_to_string hi.
Proof.
  intros Hwf. pose proof Hwf as Hwf'. rewrite List.Forall_forall in Hwf'.
  destruct (append_sorted_strings (fun _ => true)
              (map DataPoint.country items) (countryFilter c))
    as (countries & Hc & _).
  { apply field_strings. intros r Hr. apply (Hwf' r Hr). }
  destruct (append_sorted_strings (fun _ => true)
              (map DataPoint.indicator items) (indicatorFilter c))
    as (indicators & Hi & _).
  { apply field_strings. intros r Hr. apply (Hwf' r Hr). }
  destruct (append_sorted_strings offered_layer
              (map DataPoint.layer items) (layerFilter c))
    as (layers & Hl & _).
  { intros v Hv Hp. apply in_map_iff in Hv as (r & <- & Hr).
    apply (Hwf' r Hr). unfold offered_layer in Hp.
    now apply andb_true_iff in Hp. }
  rewrite filter_all in Hc, Hi.
  destruct (derived_years_four_digits items (well_formed_years items Hwf))
    as (ys & Hys & Hstr & Hfour & Hsorted & Hmem).
  exists ys.
  unfold Part000.populateFilters, Part000.populateFilters_years.
  rewrite Hc, Hi, Hys, Hstr, keyed_values, head_map, last_map.
  rewrite !append_options_spec. fold offered_layer.
  destruct (head ys) as [lo|] eqn:Hlo, (last ys) as [hi|] eqn:Hhi;
    cbn [option_map layerFilter set_year_range set_indicatorFilter
         set_countryFilter];
    rewrite Hl; (eexists; split; [reflexivity|]);
    (split; [reflexivity|]); (split; [exact Hfour|]);
    (split; [exact Hsorted|]); (split; [exact Hmem|]);
    (split; [reflexivity|]); (split; [reflexivity|]);
    (split; [reflexivity|]); intros lo0 hi0 E1 E2; try discriminate.
  injection E1 as <-. injection E2 as <-.
  cbn [yearFromFilter yearToFilter set_layerFilter set_year_range].
  rewrite !set_value_member
    by (cbn [options]; apply in_app_iff; right; apply in_map;
        eauto using head_In, last_In).
  split; reflexivity.
Qed.

(** In [src/unnamed/part_000], a successful load of a well-formed data
    set in which some record has a year, into a page whose country,
    indicator and layer selects show their empty option, sets the year
    range to the first and last year of the data and displays exactly
    the records that have a value and a year: a record without a year is
    hidden by the default range. No alert is raised. *)
Theorem part_000_load_shows_dated_records (response : Response)
    (document : Document) (items : list DataPoint.t)
    (not_a_function : string) (st : State) :
  ok response = true ->
  body response = Parsed document ->
  data_points document = Array items ->
  Forall well_formed items ->
  (exists r, In r items /\ truthy (DataPoint.year r) = true) ->
  shows_all (countryFilter (controls st)) ->
  shows_all (indicatorFilter (controls st)) ->
  shows_all (layerFilter (controls st)) ->
  exists st',
    Part000.initDashboard (Responded response) not_a_function st = Some st'
    /\ filteredData st'
       = List.filter (fun r => truthy (DataPoint.year r) && has_value r) items
    /\ summary st' = PointsAfterFilter (length (filteredData st'))
    /\ alerts st' = alerts st.
Proof.
  intros Hok Hbody Hdata Hwf (r0 & Hr0 & Ht0) [Hc _] [Hi _] [Hl _].
  unfold Part000.initDashboard.
  rewrite (fetch_document_parsed response document Hok Hbody).
  unfold data_points_or_empty. rewrite Hdata.
  cbn [allIndicatorsData set_allIndicatorsData controls].
  destruct (part_000_populate items (controls st) Hwf)
    as (ys & c' & -> & _ & Hfour & Hsorted & Hmem & Hc' & Hi' & Hl' & Hsel).
  pose proof (well_formed_years items Hwf) as Hyears.
  assert (Hin : exists z, In z ys).
  { destruct (Hyears r0 Hr0 Ht0) as (z & Hz & _). exists z. apply Hmem.
    rewrite <- Hz. split; [now apply in_map | exact Ht0]. }
  destruct Hin as (z0 & Hz0).
  destruct (head_last_nonempty ys z0 Hz0) as (lo & hi & Hlo & Hhi).
  destruct (Hsel lo hi Hlo Hhi) as [Hfrom Hto].
  assert (Hlo4 : four_digits lo).
  { rewrite List.Forall_forall in Hfour. apply Hfour. now apply head_In. }
  assert (Hhi4 : four_digits hi).
  { rewrite List.Forall_forall in Hfour. apply Hfour. now apply last_In. }
  pose proof (sorted_bounds ys lo hi Hsorted Hlo Hhi lo (head_In _ _ Hlo))
    as [_ Hle].
  unfold four_digits in *.
  eexists. split; [reflexivity|].
  change Part000.applyFilters with (applyFilters part_000).
  rewrite (range_defaults part_000 _ items lo hi);
    cbn [allIndicatorsData controls set_controls set_allIndicatorsData];
    try first [ reflexivity | assumption | congruence
              | discriminate
              | change (10 ^ 21) with 1000000000000000000000; lia ].
  - match goal with
    | |- context [renderResults part_000 (set_filteredData ?rows ?s)] =>
        destruct (rendered part_000 rows s) as (H1 & H2 & H3 & _)
    end.
    rewrite H1, H2, H3. split; [|split; reflexivity].
    apply filter_ext_in. intros r Hr.
    now rewrite (full_range items ys lo hi Hyears Hfour Hsorted Hmem Hlo Hhi r Hr).
  - intros ->. destruct Hr0.
Qed.

Lemma part_000_load_witness :
  exists st',
    Part000.initDashboard
      (Responded {| status := 200;
                    body := Parsed {| data_points :=
                                        Array [albania_2019; serbia_null_year];
                                      indicators := None |} |})
      "allIndicatorsData.map is not a function"
      (set_controls (empty_controls_5 initial_controls) initial_state)
    = Some st'
    /\ filteredData st' = [albania_2019].
Proof.
  destruct (part_000_load_shows_dated_records
              {| status := 200;
                 body := Parsed {| data_points :=
                                     Array [albania_2019; serbia_null_year];
                                   indicators := None |} |}
              {| data_points := Array [albania_2019; serbia_null_year];
                 indicators := None |}
              [albania_2019; serbia_null_year]
              "allIndicatorsData.map is not a function"
              (set_controls (empty_controls_5 initial_controls) initial_state))
    as (st' & H1 & H2 & _).
  - reflexivity.
  - reflexivity.
  - reflexivity.
  - repeat constructor; try (eexists; reflexivity);
      try discriminate;
      intros _; eexists; try split; try reflexivity; unfold four_digits; lia.
  - exists albania_2019. split; [now left | reflexivity].
  - split; [reflexivity | now left].
  - split; [reflexivity | now left].
  - split; [reflexivity | now left].
  - exists st'. split; [exact H1 | exact H2].
Defined.

(** In [src/unnamed/part_000], Clear Filters on a loaded data set whose
    years are four-digit integers (or missing), with some record that
    has a year and year selects that offer the years of the data,
    resets the range to the first and last year and displays exactly the
    records that have a value and a year, without alert. *)
Theorem part_000_clear_restores_full_range (items : list DataPoint.t)
    (st : State) :
  allIndicatorsData st = Array items ->
  (forall r, In r items -> truthy (DataPoint.year r) = true ->
             four_digit_year (DataPoint.year r)) ->
  (exists r, In r items /\ truthy (DataPoint.year r) = true) ->
  (forall r z, In r items -> DataPoint.year r = JInt z -> z <> 0 ->
     In (integer_to_string z) (options (yearFromFilter (controls st)))
     /\ In (integer_to_string z) (options (yearToFilter (controls st)))) ->
  exists st',
    Part000.clearFilters_click st = Some st'
    /\ filteredData st'
       = List.filter (fun r => truthy (DataPoint.year r) && has_value r) items
    /\ alerts st' = alerts st.
Proof.
  intros Hdata Hyears (r0 & Hr0 & Ht0) Hoffered.
  destruct (derived_years_four_digits items Hyears)
    as (ys & Hys & Hstr & Hfour & Hsorted & Hmem).
  assert (Hin : exists z, In z ys).
  { destruct (Hyears r0 Hr0 Ht0) as (z & Hz & _). exists z. apply Hmem.
    rewrite <- Hz. split; [now apply in_map | exact Ht0]. }
  destruct Hin as (z0 & Hz0).
  destruct (head_last_nonempty ys z0 Hz0) as (lo & hi & Hlo & Hhi).
  assert (Hopt : forall z, In z ys ->
            In (integer_to_string z) (options (yearFromFilter (controls st)))
            /\ In (integer_to_string z) (options (yearToFilter (controls st)))).
  { intros z Hz. apply Hmem in Hz as [Hz Ht].
    apply in_map_iff in Hz as (r & E & Hr).
    apply (Hoffered r z Hr E).
    rewrite truthy_JInt in Ht. now apply negb_true_iff, Z.eqb_neq in Ht. }
  assert (Hlo4 : four_digits lo).
  { rewrite List.Forall_forall in Hfour. apply Hfour. now apply head_In. }
  assert (Hhi4 : four_digits hi).
  { rewrite List.Forall_forall in Hfour. apply Hfour. now apply last_In. }
  pose proof (sorted_bounds ys lo hi Hsorted Hlo Hhi lo (head_In _ _ Hlo))
    as [_ Hle].
  unfold four_digits in *.
  unfold Part000.clearFilters_click.
  rewrite Hdata, Hys, Hstr, keyed_values, head_map, last_map, Hlo, Hhi.
  cbn [option_map]. eexists. split; [reflexivity|].
  change Part000.applyFilters with (applyFilters part_000).
  rewrite (range_defaults part_000 _ items lo hi);
    cbn [allIndicatorsData controls set_controls countryFilter indicatorFilter
         layerFilter yearFromFilter yearToFilter set_countryFilter
         set_indicatorFilter set_layerFilter set_year_range];
    try first [ reflexivity | assumption
              | apply selected_set_value_empty
              | change (10 ^ 21) with 1000000000000000000000; lia
              | rewrite set_value_member;
                [reflexivity | apply Hopt; eauto using head_In, last_In] ].
  - match goal with
    | |- context [renderResults part_000 (set_filteredData ?rows ?s)] =>
        destruct (rendered part_000 rows s) as (H1 & _ & H3 & _)
    end.
    rewrite H1, H3. split; [|reflexivity].
    apply filter_ext_in. intros r Hr.
    now rewrite (full_range items ys lo hi Hyears Hfour Hsorted Hmem Hlo Hhi r Hr).
  - intros ->. destruct Hr0.
Qed.

Lemma part_000_clear_witness :
  exists st',
    Part000.clearFilters_click
      {| allIndicatorsData := Array [albania_2019; serbia_null_year];
         filteredData := [];
         controls :=
           set_year_range {| options := [""; "2019"]; selected := "" |}
                          {| options := [""; "2019"]; selected := "" |}
                          initial_controls;
         summary := SummaryMarkup "";
         preview := PreviewMarkup "";
         alerts := [] |}
    = Some st'
    /\ filteredData st' = [albania_2019].
Proof.
  destruct (part_000_clear_restores_full_range
              [albania_2019; serbia_null_year]
              {| allIndicatorsData := Array [albania_2019; serbia_null_year];
                 filteredData := [];
                 controls :=
                   set_year_range {| options := [""; "2019"]; selected := "" |}
                                  {| options := [""; "2019"]; selected := "" |}
                                  initial_controls;
                 summary := SummaryMarkup "";
                 preview := PreviewMarkup "";
                 alerts := [] |}) as (st' & H1 & H2 & _).
  - reflexivity.
  - intros r [<-|[<-|[]]]; [|discriminate].
    intros _. exists 2019. split; [reflexivity | unfold four_digits; lia].
  - exists albania_2019. split; [now left | reflexivity].
  - intros r z [<-|[<-|[]]] E Hz.
    + injection E as <-. split; right; left; reflexivity.
    + discriminate E.
  - exists st'. split; [exact H1 | exact H2].
Defined.

(** ** A load that fails, and a document without records *)

Lemma script_js_populate_empty c :
  ScriptJs.populateFilters [] c = Some (ScriptJs.populateFilters_years c).
Proof. now destruct c. Qed.

Lemma part_000_populate_empty c : Part000.populateFilters [] c = Some c.
Proof. now destruct c. Qed.

(** When the fetch fails (it is rejected, the status is outside 200 to
    299, or the body does not parse), [initDashboard] writes the error
    box with the message and neither stores data nor filters; a status
    outside 200 to 299 gives the message "HTTP error! status: N"
    whatever the body. [src/script.js] changes nothing else; the other
    two variants also empty their selects to the one empty option and
    show the run-the-script message, so that on a page that had no data
    a later call of applyFilters ends in "No data available". *)
Theorem failed_load (fetched : Fetched) (message not_a_function : string)
    (st : State) :
  fetch_document fetched = inl message ->
  (forall response, fetched = Responded response -> ok response = false ->
     message = ("HTTP error! status: " ++ integer_to_string (status response))%string)
  /\ ScriptJs.initDashboard fetched not_a_function st
     = Some (set_summary (SummaryMarkup (short_error_box message)) st)
  /\ (exists st',
        Part000.initDashboard fetched not_a_function st = Some st'
        /\ summary st' = SummaryMarkup (long_error_box message)
        /\ preview st' = NoDataDiv run_script_message
        /\ Part000.getFilters st'
           = Filters.make (Some "") (Some "") (Some "") (Some "") None (Some "")
        /\ allIndicatorsData st' = allIndicatorsData st
        /\ filteredData st' = filteredData st
        /\ (allIndicatorsData st = Array [] ->
            Part000.applyFilters None None st' = show_no_data st'))
  /\ (exists st',
        Part001.initDashboard fetched not_a_function st = Some st'
        /\ summary st' = SummaryMarkup (long_error_box message)
        /\ preview st' = NoDataDiv run_script_message
        /\ Part001.getFilters st'
           = Filters.make (Some "") (Some "") None None (Some "") None
        /\ allIndicatorsData st' = allIndicatorsData st
        /\ filteredData st' = filteredData st
        /\ (allIndicatorsData st = Array [] ->
            Part001.applyFilters None None st' = show_no_data st')).
Proof.
  intros Hfail. split; [|split; [|split]].
  - intros response -> Hok. unfold fetch_document in Hfail.
    rewrite Hok in Hfail. congruence.
  - unfold ScriptJs.initDashboard. now rewrite Hfail.
  - unfold Part000.initDashboard. rewrite Hfail.
    eexists. split; [reflexivity|]. repeat split.
    intros Hdata. unfold Part000.applyFilters, data_or_default.
    cbn [allIndicatorsData Part000.show_error Part000.populateEmptyFilters
         set_preview set_controls set_summary].
    now rewrite Hdata.
  - unfold Part001.initDashboard. rewrite Hfail.
    eexists. split; [reflexivity|]. repeat split.
    intros Hdata. unfold Part001.applyFilters, data_or_default.
    cbn [allIndicatorsData Part001.show_error Part001.populateEmptyFilters
         set_preview set_controls set_summary].
    now rewrite Hdata.
Qed.

Lemma failed_load_witness :
  ScriptJs.initDashboard
    (Responded {| status := 404; body := Unparsable "" |}) "" initial_state
  = Some (set_summary
            (SummaryMarkup (short_error_box "HTTP error! status: 404"))
            initial_state).
Proof.
  apply (failed_load (Responded {| status := 404; body := Unparsable "" |})
           "HTTP error! status: 404" "" initial_state).
  reflexivity.
Defined.

(** A document whose [data_points] is missing, null or another falsy
    value, or an empty array, loads as an empty data set: no error box
    is written, the page says "No data available", and no result is
    stored. [src/script.js] still offers its fixed years, with 2015 and
    2022 selected; [src/unnamed/part_000] leaves its selects as they
    were. *)
Theorem load_without_records (response : Response) (document : Document)
    (not_a_function : string) (st : State) :
  ok response = true ->
  body response = Parsed document ->
  (data_points document = Array []
   \/ exists v, data_points document = Primitive v /\ truthy v = false) ->
  ScriptJs.initDashboard (Responded response) not_a_function st
  = Some (show_no_data
            (set_controls (ScriptJs.populateFilters_years (controls st))
               (set_allIndicatorsData (Array []) st)))
  /\ Part000.initDashboard (Responded response) not_a_function st
     = Some (show_no_data (set_allIndicatorsData (Array []) st)).
Proof.
  intros Hok Hbody Hempty.
  assert (Hdata : data_points_or_empty document = Array []).
  { unfold data_points_or_empty.
    destruct Hempty as [-> | (v & -> & ->)]; reflexivity. }
  unfold ScriptJs.initDashboard, Part000.initDashboard.
  rewrite (fetch_document_parsed response document Hok Hbody), Hdata.
  cbn [allIndicatorsData set_allIndicatorsData controls].
  rewrite script_js_populate_empty, part_000_populate_empty.
  split; [reflexivity|]. now destruct st.
Qed.

Lemma load_without_records_witness :
  Part000.initDashboard
    (Responded {| status := 200;
                  body := Parsed {| data_points := Primitive JUndefined;
                                    indicators := None |} |})
    "" initial_state
  = Some (show_no_data (set_allIndicatorsData (Array []) initial_state)).
Proof.
  apply (load_without_records
           {| status := 200;
              body := Parsed {| data_points := Primitive JUndefined;
                                indicators := None |} |}
           {| data_points := Primitive JUndefined; indicators := None |}
           "" initial_state).
  - reflexivity.
  - reflexivity.
  - right. exists JUndefined. split; reflexivity.
Defined.

(** A document whose [data_points] is a truthy value that is no array
    (an object, a non-empty string, a non-zero number): the value is
    stored as the data set, populateFilters fails on it with the
    engine's TypeError, whose message goes into the error box, and
    nothing is filtered; applying the filters afterwards ends in "No
    data available". *)
Theorem load_of_non_array (response : Response) (document : Document)
    (not_a_function : string) (st : State) :
  ok response = true ->
  body response = Parsed document ->
  (data_points document = PlainObject
   \/ exists v, data_points document = Primitive v /\ truthy v = true) ->
  (exists st',
      ScriptJs.initDashboard (Responded response) not_a_function st = Some st'
      /\ allIndicatorsData st' = data_points document
      /\ summary st' = SummaryMarkup (short_error_box not_a_function)
      /\ filteredData st' = filteredData st
      /\ controls st' = controls st
      /\ ScriptJs.applyFilters None None st' = show_no_data st')
  /\ (exists st',
        Part000.initDashboard (Responded response) not_a_function st = Some st'
        /\ allIndicatorsData st' = data_points document
        /\ summary st' = SummaryMarkup (long_error_box not_a_function)
        /\ filteredData st' = filteredData st
        /\ controls st' = empty_controls_5 (controls st)
        /\ Part000.applyFilters None None st' = show_no_data st')
  /\ (exists st',
        Part001.initDashboard (Responded response) not_a_function st = Some st'
        /\ allIndicatorsData st' = data_points document
        /\ summary st' = SummaryMarkup (long_error_box not_a_function)
        /\ filteredData st' = filteredData st
        /\ controls st' = empty_controls_3 (controls st)
        /\ Part001.applyFilters None None st' = show_no_data st').
Proof.
  intros Hok Hbody Hdata.
  assert (Hstored : data_points_or_empty document = data_points document).
  { unfold data_points_or_empty.
    destruct Hdata as [-> | (v & -> & ->)]; reflexivity. }
  unfold ScriptJs.initDashboard, Part000.initDashboard, Part001.initDashboard.
  rewrite (fetch_document_parsed response document Hok Hbody), Hstored.
  cbn [allIndicatorsData set_allIndicatorsData].
  destruct Hdata as [-> | (v & -> & _)];
    (split; [|split]); eexists; (split; [reflexivity|]); repeat split.
Qed.

Lemma load_of_non_array_witness :
  exists st',
    Part001.initDashboard
      (Responded {| status := 200;
                    body := Parsed {| data_points := Primitive (JStr "none");
                                      indicators := None |} |})
      "allIndicatorsData.map is not a function" initial_state = Some st'
    /\ allIndicatorsData st' = Primitive (JStr "none")
    /\ summary st'
       = SummaryMarkup
           (long_error_box "allIndicatorsData.map is not a function").
Proof.
  destruct (load_of_non_array
              {| status := 200;
                 body := Parsed {| data_points := Primitive (JStr "none");
                                   indicators := None |} |}
              {| data_points := Primitive (JStr "none"); indicators := None |}
              "allIndicatorsData.map is not a function" initial_state)
    as (_ & _ & st' & H1 & H2 & H3 & _).
  - reflexivity.
  - reflexivity.
  - right. exists (JStr "none"). split; reflexivity.
  - exists st'. auto.
Defined.

(** ** The page once the data are loaded *)








(** ** Integer years and bounds, and the variants against each other *)



(** [src/script.js] evaluates every spec as [src/unnamed/part_000]
    evaluates it with the layer field removed. *)
Theorem script_js_is_part_000_without_layer (data : Data) (f : Filters.t) :
  run script_js data f = run part_000 data (with_layer None f).
Proof.
  rewrite !run_spec. destruct data as [x| |[|r items]]; try reflexivity.
  rewrite !filter_rows_spec.
  change (range_inverted (with_layer None f)) with (range_inverted f).
  cbn [range_mode]. destruct (true && range_inverted f); reflexivity.
Qed.

(** In the exact-year variant with the year set, every record of the
    result has a number for its year: a year held as a string, such as
    "2019", is matched by no selection. *)
Theorem exact_year_needs_a_number (items out : list DataPoint.t)
    (f : Filters.t) (r : DataPoint.t) :
  is_set (Filters.year f) = true ->
  run part_001 (Array items) f = Filtered out ->
  In r out ->
  numeric_year r
  /\ DataPoint.year r <> JNum NaN
  /\ strict_eq (DataPoint.year r) (bound (Filters.year f)) = true.
Proof.
  intros Hset Hrun Hr.
  apply run_Filtered in Hrun as (items' & [= <-] & _ & _ & ->).
  apply filter_In in Hr as [_ Hr]. apply keeps_year_ok in Hr.
  unfold year_ok, exact_ok in Hr. cbn [range_mode] in Hr.
  rewrite Hset in Hr. split; [|split; [|exact Hr]].
  - unfold bound in Hr. destruct (DataPoint.year r) as [| |b|n|s] eqn:E;
      try discriminate Hr. now exists n.
  - intros E. rewrite E in Hr. discriminate Hr.
Qed.

Lemma exact_year_needs_a_number_witness :
  numeric_year albania_2019.
Proof.
  apply (exact_year_needs_a_number
           [albania_2019; point "Serbia" (JStr "2019") (JInt 7) JNull]
           [albania_2019] (exact_spec None None (Some "2019")) albania_2019).
  - reflexivity.
  - reflexivity.
  - now left.
Defined.
